(** * Test Case Generator API (backend/app.py): session cache and response cache

    A shallow embedding of the three request handlers of [backend/app.py]
    ([authenticate_jira], [fetch_epic_stories], [generate_test_cases]), of the
    two process-wide dictionaries they share ([cached_dict],
    [test_case_cache]) and of the key derivations, followed by the properties
    the design document states about them. *)

From Stdlib Require Import ZArith List String Ascii Lia Bool.
From stdpp Require Import base gmap strings list fin_maps.

Local Open Scope Z_scope.

(** ** Python [str]

    A Python string is modelled as a Rocq [string] whose characters are the
    code points 0..255 of the text.  On that range [str.isspace], [+] and
    [==] are exactly the operations below, and [str.encode()] (UTF-8) is
    [encode]. *)

Definition ord (c : ascii) : Z := Z.of_N (N_of_ascii c).

(** [str.encode()]: UTF-8, one byte below U+0080 and two bytes from U+0080 to
    U+00FF. *)
Definition encode_char (c : ascii) : list Z :=
  let n := ord c in
  if n <? 128 then [n] else [Z.lor 192 (Z.shiftr n 6); Z.lor 128 (Z.land n 63)].

Fixpoint encode (s : string) : list Z :=
  match s with
  | EmptyString => []
  | String c s' => encode_char c ++ encode s'
  end.

(** ** [hashlib.md5(...).hexdigest()] (RFC 1321) *)

Module MD5.

Definition mask32 (x : Z) : Z := Z.land x 4294967295.

Definition add32 (x y : Z) : Z := mask32 (x + y).

Definition not32 (x : Z) : Z := Z.lxor x 4294967295.

Definition rotl32 (x n : Z) : Z :=
  mask32 (Z.lor (Z.shiftl x n) (Z.shiftr x (32 - n))).

Definition K : list Z :=
  [ 0xd76aa478; 0xe8c7b756; 0x242070db; 0xc1bdceee;
    0xf57c0faf; 0x4787c62a; 0xa8304613; 0xfd469501;
    0x698098d8; 0x8b44f7af; 0xffff5bb1; 0x895cd7be;
    0x6b901122; 0xfd987193; 0xa679438e; 0x49b40821;
    0xf61e2562; 0xc040b340; 0x265e5a51; 0xe9b6c7aa;
    0xd62f105d; 0x02441453; 0xd8a1e681; 0xe7d3fbc8;
    0x21e1cde6; 0xc33707d6; 0xf4d50d87; 0x455a14ed;
    0xa9e3e905; 0xfcefa3f8; 0x676f02d9; 0x8d2a4c8a;
    0xfffa3942; 0x8771f681; 0x6d9d6122; 0xfde5380c;
    0xa4beea44; 0x4bdecfa9; 0xf6bb4b60; 0xbebfbc70;
    0x289b7ec6; 0xeaa127fa; 0xd4ef3085; 0x04881d05;
    0xd9d4d039; 0xe6db99e5; 0x1fa27cf8; 0xc4ac5665;
    0xf4292244; 0x432aff97; 0xab9423a7; 0xfc93a039;
    0x655b59c3; 0x8f0ccc92; 0xffeff47d; 0x85845dd1;
    0x6fa87e4f; 0xfe2ce6e0; 0xa3014314; 0x4e0811a1;
    0xf7537e82; 0xbd3af235; 0x2ad7d2bb; 0xeb86d391 ].

Definition S : list Z :=
  [ 7; 12; 17; 22; 7; 12; 17; 22; 7; 12; 17; 22; 7; 12; 17; 22;
    5; 9; 14; 20; 5; 9; 14; 20; 5; 9; 14; 20; 5; 9; 14; 20;
    4; 11; 16; 23; 4; 11; 16; 23; 4; 11; 16; 23; 4; 11; 16; 23;
    6; 10; 15; 21; 6; 10; 15; 21; 6; 10; 15; 21; 6; 10; 15; 21 ].

(** The four chaining words A, B, C, D. *)
Record state := State { sA : Z; sB : Z; sC : Z; sD : Z }.

Definition init : state :=
  State 0x67452301 0xefcdab89 0x98badcfe 0x10325476.

(** Little-endian 32-bit word of four bytes, and back. *)
Definition word_of_bytes (bs : list Z) : Z :=
  fold_right (fun b acc => b + 256 * acc) 0 bs.

Fixpoint bytes_of_word (n : nat) (w : Z) : list Z :=
  match n with
  | O => []
  | Datatypes.S n' => Z.land w 255 :: bytes_of_word n' (Z.shiftr w 8)
  end.

Fixpoint words (n : nat) (bs : list Z) : list Z :=
  match n with
  | O => []
  | Datatypes.S n' => word_of_bytes (firstn 4 bs) :: words n' (skipn 4 bs)
  end.

(** One of the 64 operations of a round, on message words [M]. *)
Definition step (M : list Z) (st : state) (i : nat) : state :=
  let '(State a b c d) := st in
  let iz := Z.of_nat i in
  let '(f, g) :=
    if iz <? 16 then (Z.lor (Z.land b c) (Z.land (not32 b) d), iz)
    else if iz <? 32 then
      (Z.lor (Z.land d b) (Z.land (not32 d) c), (5 * iz + 1) mod 16)
    else if iz <? 48 then (Z.lxor b (Z.lxor c d), (3 * iz + 5) mod 16)
    else (Z.lxor c (Z.lor b (not32 d)), (7 * iz) mod 16) in
  let f' := add32 (add32 (add32 f a) (nth i K 0)) (nth (Z.to_nat g) M 0) in
  State d (add32 b (rotl32 f' (nth i S 0))) b c.

Definition compress (st : state) (block : list Z) : state :=
  let M := words 16 block in
  let st' := fold_left (step M) (seq 0 64) st in
  State (add32 (sA st) (sA st')) (add32 (sB st) (sB st'))
        (add32 (sC st) (sC st')) (add32 (sD st) (sD st')).

(** Padding: a 1 bit, zeros up to 56 mod 64, the bit length on 64 bits. *)
Definition pad (msg : list Z) : list Z :=
  let len := Z.of_nat (length msg) in
  let zeros := Z.to_nat ((55 - len) mod 64) in
  msg ++ [128] ++ repeat 0 zeros ++ bytes_of_word 8 (Z.land (8 * len) (2 ^ 64 - 1)).

Fixpoint blocks (n : nat) (st : state) (bs : list Z) : state :=
  match n with
  | O => st
  | Datatypes.S n' => blocks n' (compress st (firstn 64 bs)) (skipn 64 bs)
  end.

Definition digest (msg : list Z) : list Z :=
  let p := pad msg in
  let st := blocks (length p / 64) init p in
  bytes_of_word 4 (sA st) ++ bytes_of_word 4 (sB st) ++
  bytes_of_word 4 (sC st) ++ bytes_of_word 4 (sD st).

Definition hex_digit (n : Z) : ascii :=
  ascii_of_N (Z.to_N (if n <? 10 then 48 + n else 87 + n)).

Fixpoint hex (bs : list Z) : string :=
  match bs with
  | [] => EmptyString
  | b :: bs' => String (hex_digit (Z.shiftr b 4)) (String (hex_digit (Z.land b 15)) (hex bs'))
  end.

Definition hexdigest (msg : list Z) : string := hex (digest msg).

End MD5.

(** ** Python values received from the collaborators

    The issue tracker's resources and the generator's reply are duck-typed
    objects: the handlers read them with attribute access, [hasattr] and
    truth tests only. *)

#[warnings="-register-all"]
Inductive PyVal :=
| PNone
| PStr (s : string)
| PList (l : list PyVal)
| PObj (cls : string) (attrs : list (string * PyVal)).

(** The exceptions the handlers can see.  [JIRAError] carries the library's
    [status_code] (an [int] or [None]) and its rendering [str(e)]. *)
Inductive Exn :=
| JIRAError (status_code : option Z) (text : string)
| AttributeError (cls attr : string)
| ValidationError (model : string) (fields : list string)
| Exception (text : string).

Definition type_name (v : PyVal) : string :=
  match v with
  | PNone => "NoneType"
  | PStr _ => "str"
  | PList _ => "list"
  | PObj cls _ => cls
  end.

Fixpoint assoc (a : string) (l : list (string * PyVal)) : option PyVal :=
  match l with
  | [] => None
  | (k, v) :: l' => if String.eqb k a then Some v else assoc a l'
  end.

(** [getattr(v, a)]: the attributes the handlers ask for ([fields], [key],
    [labels], [name], ...) exist on resource objects only. *)
Definition getattr (v : PyVal) (a : string) : Exn + PyVal :=
  match v with
  | PObj cls attrs =>
      match assoc a attrs with
      | Some x => inr x
      | None => inl (AttributeError cls a)
      end
  | _ => inl (AttributeError (type_name v) a)
  end.

(** [hasattr(v, a)] is [False] exactly when [getattr(v, a)] raises. *)
Definition hasattr (v : PyVal) (a : string) : bool :=
  match getattr v a with
  | inr _ => true
  | inl _ => false
  end.

(** Truth value of an object: [None], the empty string and the empty list are
    false. *)
Definition truthy (v : PyVal) : bool :=
  match v with
  | PNone => false
  | PStr s => negb (String.eqb s EmptyString)
  | PList l => match l with [] => false | _ => true end
  | PObj _ _ => true
  end.

(** [str(e)].  Pydantic's per-field lines of a validation error are left
    out. *)
Definition str (e : Exn) : string :=
  match e with
  | JIRAError _ text => text
  | AttributeError cls attr =>
      "'" +:+ cls +:+ "' object has no attribute '" +:+ attr +:+ "'"
  | ValidationError model _ => "validation error for " +:+ model
  | Exception text => text
  end.

(** [str.isspace] on the code points 0..255. *)
Definition isspace (c : ascii) : bool :=
  let n := ord c in
  ((9 <=? n) && (n <=? 13)) || ((28 <=? n) && (n <=? 32))
  || (n =? 133) || (n =? 160).

(** [s.split()] with no separator: the maximal runs of non-whitespace
    characters, in order.  [cur] is the run being read. *)
Fixpoint split_from (cur : string) (s : string) : list string :=
  match s with
  | EmptyString =>
      match cur with EmptyString => [] | _ => [cur] end
  | String c s' =>
      if isspace c then
        match cur with
        | EmptyString => split_from EmptyString s'
        | _ => cur :: split_from EmptyString s'
        end
      else split_from (cur +:+ String c EmptyString) s'
  end.

Definition split (s : string) : list string := split_from EmptyString s.

(** The design document's wording of [token_count]: the number of
    whitespace-delimited tokens, counted as the positions where a token
    starts (a non-whitespace character at the start of the text or right
    after a whitespace character). *)
Fixpoint token_starts (after_space : bool) (s : string) : nat :=
  match s with
  | EmptyString => O
  | String c s' =>
      if isspace c then token_starts true s'
      else (if after_space then 1 else 0)%nat + token_starts false s'
  end.

Definition whitespace_delimited_tokens (s : string) : nat := token_starts true s.

(** ** Request and response models (pydantic) *)

Module IssueFetchRequest.
Record t := mk { domain : string; email : string; jira_id : string; jira_token : string }.
End IssueFetchRequest.

Module TestCaseRequest.
Record t := mk { user_story : string; jira_id : string; acceptance_criteria : option string }.
End TestCaseRequest.

Record StoryItem := {
  key : string;
  summary : string;
  description : option string;
  priority : option string;
  status : option string;
  assignee : option string;
  due_date : option string;
  epic_link : option string;
  tags : list string
}.

Record IssueFetchResponse := {
  epic_key : string;
  epic_summary : string;
  epic_description : option string;
  stories : list StoryItem
}.

(** The dict [{"status": ..., "username": ...}] of [authenticate_jira]. *)
Record AuthResponse := { auth_status : string; username : PyVal }.

(** The dict [{"content": ..., "token_count": ...}] of
    [generate_test_cases]. *)
Record TestCaseResult := { content : string; token_count : Z }.

Record HTTPException := { status_code : Z; detail : string }.

(** Field validation: [str], [Optional[str]] and [list[str]]. *)
Definition as_str (v : PyVal) : option string :=
  match v with PStr s => Some s | _ => None end.

Definition as_opt_str (v : PyVal) : option (option string) :=
  match v with
  | PNone => Some None
  | PStr s => Some (Some s)
  | _ => None
  end.

Fixpoint as_strs (l : list PyVal) : option (list string) :=
  match l with
  | [] => Some []
  | v :: l' =>
      match as_str v, as_strs l' with
      | Some s, Some ss => Some (s :: ss)
      | _, _ => None
      end
  end.

Definition as_list_str (v : PyVal) : option (list string) :=
  match v with PList l => as_strs l | _ => None end.

Definition invalid {A} (name : string) (o : option A) : list string :=
  match o with Some _ => [] | None => [name] end.

(** [StoryItem(key=..., summary=..., ...)]. *)
Definition StoryItem_new
    (key summary description priority status assignee due_date epic_link tags : PyVal)
    : Exn + StoryItem :=
  match as_str key, as_str summary, as_opt_str description, as_opt_str priority,
        as_opt_str status, as_opt_str assignee, as_opt_str due_date,
        as_opt_str epic_link, as_list_str tags with
  | Some k, Some s, Some d, Some p, Some st, Some a, Some dd, Some el, Some tg =>
      inr (Build_StoryItem k s d p st a dd el tg)
  | ok, os, od, op, ost, oa, odd, oel, otg =>
      inl (ValidationError "StoryItem"
             (invalid "key" ok ++ invalid "summary" os ++ invalid "description" od
              ++ invalid "priority" op ++ invalid "status" ost
              ++ invalid "assignee" oa ++ invalid "due_date" odd
              ++ invalid "epic_link" oel ++ invalid "tags" otg))
  end.

(** [IssueFetchResponse(epic_key=..., ...)]; [stories] is already a list of
    [StoryItem]. *)
Definition IssueFetchResponse_new
    (epic_key epic_summary epic_description : PyVal) (stories : list StoryItem)
    : Exn + IssueFetchResponse :=
  match as_str epic_key, as_str epic_summary, as_opt_str epic_description with
  | Some k, Some s, Some d => inr (Build_IssueFetchResponse k s d stories)
  | ok, os, od =>
      inl (ValidationError "IssueFetchResponse"
             (invalid "epic_key" ok ++ invalid "epic_summary" os
              ++ invalid "epic_description" od))
  end.

(** ** Key derivations *)

(** [f"{request.domain}:{request.email}"] (lines 81 and 103). *)
Definition session_key (request : IssueFetchRequest.t) : string :=
  IssueFetchRequest.domain request +:+ ":" +:+ IssueFetchRequest.email request.

(** [f"{user_story}|{jira_id}|{acceptance_criteria}"]. *)
Definition combined (user_story jira_id acceptance_criteria : string) : string :=
  user_story +:+ "|" +:+ jira_id +:+ "|" +:+ acceptance_criteria.

Definition create_cache_key (user_story jira_id acceptance_criteria : string) : string :=
  MD5.hexdigest (encode (combined user_story jira_id acceptance_criteria)).

Arguments create_cache_key : simpl never.

(** [x or <empty string>] on an [Optional[str]]. *)
Definition or_empty (x : option string) : string :=
  match x with
  | Some s => s
  | None => EmptyString
  end.

(** [e.status_code == n] and [e.status_code or d] on an [int] or [None]. *)
Definition status_is (sc : option Z) (n : Z) : bool :=
  match sc with Some m => m =? n | None => false end.

Definition status_or (sc : option Z) (d : Z) : Z :=
  match sc with
  | Some m => if m =? 0 then d else m
  | None => d
  end.

(** The two [except] clauses shared by [authenticate_jira] (lines 85-96) and
    [fetch_epic_stories] (lines 160-171). *)
Definition except_jira (e : Exn) : HTTPException :=
  match e with
  | JIRAError sc _ =>
      if status_is sc 401 then
        Build_HTTPException 401 "Authentication failed: Invalid credentials"
      else Build_HTTPException (status_or sc 500) ("JIRA Error: " +:+ str e)
  | _ => Build_HTTPException 500 ("Error connecting with JIRA: " +:+ str e)
  end.

(** The [except Exception] clause of [generate_test_cases] (lines
    210-213). *)
Definition except_generate (e : Exn) : HTTPException :=
  Build_HTTPException 500 ("Error generating test cases: " +:+ str e).

(** ** Shared state, collaborators and the handlers *)

Section Handlers.

(** [Handle] is the authenticated [JIRA] client object; [Ext] is whatever
    state the two external services keep (they may answer the same call
    differently over time). *)
Context {Handle Ext : Type}.

(** A call to a collaborator, as a call-count stub would record it. *)
Inductive Event :=
| EvJIRA (server email token : string)
| EvMyself (jira : Handle)
| EvIssue (jira : Handle) (id : string)
| EvSearch (jira : Handle) (jql : string) (maxResults : Z)
| EvInvoke (prompt : string).

(** The issue-tracker client library ([jira.JIRA] and the methods of a client)
    and the module [scripts.llm] ([test_case_prompt.format],
    [llm_model.invoke]) are external to [app.py]: their operations are
    parameters.  An operation answers from the services' state and may change
    it; [test_case_prompt.format] only builds a string. *)
Class Collaborators := {
  JIRA : string -> string -> string -> Ext -> (Exn + Handle) * Ext;
  myself : Handle -> Ext -> (Exn + list (string * PyVal)) * Ext;
  issue : Handle -> string -> Ext -> (Exn + PyVal) * Ext;
  search_issues : Handle -> string -> Z -> Ext -> (Exn + list PyVal) * Ext;
  test_case_prompt_format : string -> string -> string -> Exn + string;
  llm_invoke : string -> Ext -> (Exn + PyVal) * Ext
}.

Context `{Collaborators}.

(** The module-level dictionaries, the services' state and the log of the
    calls made to them (oldest first). *)
Record World := {
  cached_dict : gmap string Handle;
  test_case_cache : gmap string TestCaseResult;
  ext : Ext;
  calls : list Event
}.

(** Code that can raise and that reads and writes the shared state. *)
Definition M (A : Type) : Type := World -> (Exn + A) * World.

Definition ret {A} (a : A) : M A := fun w => (inr a, w).

Definition raise {A} (e : Exn) : M A := fun w => (inl e, w).

Definition bind {A B} (m : M A) (k : A -> M B) : M B :=
  fun w =>
    match m w with
    | (inr a, w') => k a w'
    | (inl e, w') => (inl e, w')
    end.

Definition lift {A} (r : Exn + A) : M A :=
  match r with
  | inr a => ret a
  | inl e => raise e
  end.

Notation "x <- m ;; k" := (bind m (fun x => k))
  (at level 100, m at next level, right associativity).

(** [try: body except ...: raise HTTPException(...)]. *)
Definition try_except {A} (body : M A) (handler : Exn -> HTTPException)
    : World -> (HTTPException + A) * World :=
  fun w =>
    match body w with
    | (inr a, w') => (inr a, w')
    | (inl e, w') => (inl (handler e), w')
    end.

(** A collaborator call: logged, then answered from the services' state. *)
Definition call {A} (ev : Event) (f : Ext -> (Exn + A) * Ext) : M A :=
  fun w =>
    let (r, x) := f (ext w) in
    (r, {| cached_dict := cached_dict w;
           test_case_cache := test_case_cache w;
           ext := x;
           calls := calls w ++ [ev] |}).

(** [cached_dict.get(k)] and [cached_dict[k] = jira]. *)
Definition cached_dict_get (k : string) : M (option Handle) :=
  fun w => (inr (cached_dict w !! k), w).

Definition cached_dict_set (k : string) (jira : Handle) : M unit :=
  fun w =>
    (inr tt, {| cached_dict := <[k := jira]> (cached_dict w);
                test_case_cache := test_case_cache w;
                ext := ext w;
                calls := calls w |}).

(** [k in test_case_cache] with [test_case_cache[k]], and
    [test_case_cache[k] = result]. *)
Definition test_case_cache_get (k : string) : M (option TestCaseResult) :=
  fun w => (inr (test_case_cache w !! k), w).

Definition test_case_cache_set (k : string) (result : TestCaseResult) : M unit :=
  fun w =>
    (inr tt, {| cached_dict := cached_dict w;
                test_case_cache := <[k := result]> (test_case_cache w);
                ext := ext w;
                calls := calls w |}).

(** [user.get("displayName")] on the dict returned by [myself()]; the
    tracker's answer is taken to be a dict, on which [get] does not raise. *)
Definition dict_get (d : list (string * PyVal)) (k : string) : PyVal :=
  match assoc k d with
  | Some v => v
  | None => PNone
  end.

(** Lines 73-84. *)
Definition authenticate_jira_body (request : IssueFetchRequest.t) : M AuthResponse :=
  jira <- call (EvJIRA (IssueFetchRequest.domain request)
                       (IssueFetchRequest.email request)
                       (IssueFetchRequest.jira_token request))
               (JIRA (IssueFetchRequest.domain request)
                     (IssueFetchRequest.email request)
                     (IssueFetchRequest.jira_token request)) ;;
  user <- call (EvMyself jira) (myself jira) ;;
  let cache_key := session_key request in
  _ <- cached_dict_set cache_key jira ;;
  ret {| auth_status := "authenticated"; username := dict_get user "displayName" |}.

Definition authenticate_jira (request : IssueFetchRequest.t)
    : World -> (HTTPException + AuthResponse) * World :=
  try_except (authenticate_jira_body request) except_jira.

(** Lines 120-152, one turn of the loop over [stories]. *)
Definition story_item (request : IssueFetchRequest.t) (story : PyVal) : Exn + StoryItem :=
  match getattr story "fields" with
  | inl e => inl e
  | inr fields =>
      let tags :=
        if hasattr fields "labels" then getattr fields "labels" else inr (PList []) in
      match tags with
      | inl e => inl e
      | inr tags =>
      let assignee :=
        match getattr fields "assignee" with
        | inl e => inl e
        | inr a => if truthy a then getattr a "displayName" else inr PNone
        end in
      match assignee with
      | inl e => inl e
      | inr assignee =>
      let priority :=
        match getattr fields "priority" with
        | inl e => inl e
        | inr p => if hasattr p "name" then getattr p "name" else inr PNone
        end in
      match priority with
      | inl e => inl e
      | inr priority =>
      let status :=
        if hasattr fields "name" then
          match getattr fields "status" with
          | inl e => inl e
          | inr s => getattr s "name"
          end
        else inr PNone in
      match status with
      | inl e => inl e
      | inr status =>
      let due_date :=
        if hasattr fields "duedate" then getattr fields "duedate" else inr PNone in
      match due_date with
      | inl e => inl e
      | inr due_date =>
      match getattr story "key" with
      | inl e => inl e
      | inr key =>
      match getattr fields "summary" with
      | inl e => inl e
      | inr summary =>
      match getattr fields "description" with
      | inl e => inl e
      | inr description =>
          StoryItem_new key summary description priority status assignee due_date
            (PStr (IssueFetchRequest.jira_id request)) tags
      end end end end end end end end
  end.

(** [for story in stories: ... story_items.append(...)]. *)
Fixpoint story_items (request : IssueFetchRequest.t) (stories : list PyVal)
    : Exn + list StoryItem :=
  match stories with
  | [] => inr []
  | story :: rest =>
      match story_item request story with
      | inl e => inl e
      | inr item =>
          match story_items request rest with
          | inl e => inl e
          | inr items => inr (item :: items)
          end
      end
  end.

Definition dquote : string := String (ascii_of_nat 34) EmptyString.

(** Lines 114-116. *)
Definition jql_query (request : IssueFetchRequest.t) : string :=
  dquote +:+ "Epic Link" +:+ dquote +:+ " = " +:+ IssueFetchRequest.jira_id request
  +:+ " AND issuetype = Story ORDER BY key ASC".

(** Lines 154-159. *)
Definition fetch_response (epic : PyVal) (items : list StoryItem)
    : Exn + IssueFetchResponse :=
  match getattr epic "key" with
  | inl e => inl e
  | inr k =>
      match getattr epic "fields" with
      | inl e => inl e
      | inr fields =>
          match getattr fields "summary" with
          | inl e => inl e
          | inr s =>
              match getattr fields "description" with
              | inl e => inl e
              | inr d => IssueFetchResponse_new k s d items
              end
          end
      end
  end.

(** Lines 101-159.  A client object is always true, so [not jira] holds
    exactly when [cached_dict.get(cache_key)] is [None]. *)
Definition fetch_epic_stories_body (request : IssueFetchRequest.t) : M IssueFetchResponse :=
  let cache_key := session_key request in
  cached <- cached_dict_get cache_key ;;
  jira <- match cached with
          | Some jira => ret jira
          | None =>
              jira <- call (EvJIRA (IssueFetchRequest.domain request)
                                   (IssueFetchRequest.email request)
                                   (IssueFetchRequest.jira_token request))
                           (JIRA (IssueFetchRequest.domain request)
                                 (IssueFetchRequest.email request)
                                 (IssueFetchRequest.jira_token request)) ;;
              _ <- cached_dict_set cache_key jira ;;
              ret jira
          end ;;
  epic <- call (EvIssue jira (IssueFetchRequest.jira_id request))
               (issue jira (IssueFetchRequest.jira_id request)) ;;
  stories <- call (EvSearch jira (jql_query request) 100)
                  (search_issues jira (jql_query request) 100) ;;
  items <- lift (story_items request stories) ;;
  lift (fetch_response epic items).

Definition fetch_epic_stories (request : IssueFetchRequest.t)
    : World -> (HTTPException + IssueFetchResponse) * World :=
  try_except (fetch_epic_stories_body request) except_jira.

(** The receiver of a [str] method such as [content.split]: any other
    object has no such attribute. *)
Definition str_receiver (v : PyVal) (method : string) : Exn + string :=
  match v with
  | PStr s => inr s
  | _ => inl (AttributeError (type_name v) method)
  end.

(** Lines 185-208. *)
Definition generate_test_cases_body (request : TestCaseRequest.t) : M TestCaseResult :=
  let cache_key :=
    create_cache_key (TestCaseRequest.user_story request)
                     (TestCaseRequest.jira_id request)
                     (or_empty (TestCaseRequest.acceptance_criteria request)) in
  cached <- test_case_cache_get cache_key ;;
  match cached with
  | Some result => ret result
  | None =>
      formatted_prompt <-
        lift (test_case_prompt_format
                (TestCaseRequest.user_story request)
                (TestCaseRequest.jira_id request)
                (or_empty (TestCaseRequest.acceptance_criteria request))) ;;
      response <- call (EvInvoke formatted_prompt) (llm_invoke formatted_prompt) ;;
      content <- lift (getattr response "content") ;;
      content <- lift (str_receiver content "split") ;;
      let token_count := Z.of_nat (length (split content)) in
      let result := {| content := content; token_count := token_count |} in
      _ <- test_case_cache_set cache_key result ;;
      ret result
  end.

Definition generate_test_cases (request : TestCaseRequest.t)
    : World -> (HTTPException + TestCaseResult) * World :=
  try_except (generate_test_cases_body request) except_generate.

(** ** The service as a state machine *)

Inductive Request :=
| Authenticate (request : IssueFetchRequest.t)
| FetchStories (request : IssueFetchRequest.t)
| GenerateTestCases (request : TestCaseRequest.t).

(** The state a request leaves behind. *)
Definition serve (r : Request) (w : World) : World :=
  match r with
  | Authenticate request => snd (authenticate_jira request w)
  | FetchStories request => snd (fetch_epic_stories request w)
  | GenerateTestCases request => snd (generate_test_cases request w)
  end.

(** The state after a sequence of requests, served in order. *)
Definition serve_all (rs : list Request) (w : World) : World :=
  fold_left (fun w r => serve r w) rs w.

(** At start-up both dictionaries are empty and nothing was called. *)
Definition start (x : Ext) : World :=
  {| cached_dict := ∅; test_case_cache := ∅; ext := x; calls := [] |}.

Inductive reachable : World -> Prop :=
| reachable_start x : reachable (start x)
| reachable_serve r w : reachable w -> reachable (serve r w).

(** Number of calls made to the generative-language service. *)
Definition is_invoke (ev : Event) : bool :=
  match ev with EvInvoke _ => true | _ => false end.

Definition invocations (w : World) : nat := length (List.filter is_invoke (calls w)).

Definition is_JIRA (ev : Event) : bool :=
  match ev with EvJIRA _ _ _ => true | _ => false end.

Definition authentications (w : World) : nat := length (List.filter is_JIRA (calls w)).

End Handlers.

Arguments Event : clear implicits.
Arguments World : clear implicits.
Arguments Collaborators : clear implicits.

(** ** Test doubles

    Stand-ins for the two services, of the kind a test suite would plug in.
    A client handle is the credentials it was built with; the services'
    state is the number of answers the generator has given, and the
    generator words its answer differently each time. *)

Module Stub.

Definition JIRA (server email token : string) (x : nat) : (Exn + string) * nat :=
  if String.eqb token "badtoken"
  then (inl (JIRAError (Some 401) "JiraError HTTP 401"), x)
  else (inr (email +:+ "/" +:+ token), x).

Definition myself (jira : string) (x : nat) : (Exn + list (string * PyVal)) * nat :=
  (inr [("displayName", PStr "Ada")], x).

Definition epic (id : string) : PyVal :=
  PObj "Issue"
    [("key", PStr id);
     ("fields", PObj "PropertyHolder"
        [("summary", PStr "Checkout"); ("description", PNone)])].

Definition issue (jira id : string) (x : nat) : (Exn + PyVal) * nat :=
  if String.eqb id "PROJ-404"
  then (inl (JIRAError (Some 404) "JiraError HTTP 404"), x)
  else (inr (epic id), x).

(** A story as the tracker returns it: [fields] has no [name]. *)
Definition story1 : PyVal :=
  PObj "Issue"
    [("key", PStr "PROJ-11");
     ("fields", PObj "PropertyHolder"
        [("summary", PStr "Pay by card"); ("description", PNone);
         ("labels", PList [PStr "payments"]); ("assignee", PNone);
         ("priority", PObj "Priority" [("name", PStr "High")]);
         ("status", PObj "Status" [("name", PStr "Done")]);
         ("duedate", PNone)])].

(** A story whose [fields] happens to carry a [name]. *)
Definition story2 : PyVal :=
  PObj "Issue"
    [("key", PStr "PROJ-12");
     ("fields", PObj "PropertyHolder"
        [("summary", PStr "Pay by voucher"); ("description", PStr "As a user...");
         ("assignee", PObj "User" [("displayName", PStr "Ada")]);
         ("priority", PNone);
         ("status", PObj "Status" [("name", PStr "Open")]);
         ("name", PStr "custom")])].

Definition search_issues (jira jql : string) (maxResults : Z) (x : nat)
    : (Exn + list PyVal) * nat :=
  (inr [story1; story2], x).

Definition test_case_prompt_format (user_story jira_id acceptance_criteria : string)
    : Exn + string :=
  inr ("Story " +:+ jira_id +:+ ": " +:+ user_story +:+ " Criteria: " +:+ acceptance_criteria).

Definition llm_invoke (prompt : string) (x : nat) : (Exn + PyVal) * nat :=
  match x with
  | O => (inr (PObj "AIMessage" [("content", PStr "1. Open the cart  2. Pay")]), 1%nat)
  | 1%nat => (inr (PObj "AIMessage" [("content", PStr "TC1: pay with a valid card")]), 2%nat)
  | _ => (inl (Exception "quota exceeded"), x)
  end.

#[global] Instance collaborators : Collaborators string nat :=
  Build_Collaborators
    JIRA myself issue search_issues test_case_prompt_format llm_invoke.

End Stub.

(** ** Vocabulary of the properties *)

(** Inverse of [encode_char] at the head of a byte sequence. *)
Definition decode_head (bs : list Z) : option (ascii * list Z) :=
  match bs with
  | [] => None
  | b :: bs' =>
      if b <? 128 then Some (ascii_of_N (Z.to_N b), bs')
      else
        match bs' with
        | [] => None
        | b2 :: bs'' =>
            Some (ascii_of_N (Z.to_N (Z.lor (Z.shiftl (Z.land b 3) 6) (Z.land b2 63))), bs'')
        end
  end.

(** Two (description, identifier, criteria) triples that differ in a single
    field, the other two being equal. *)
Definition differ_in_one_field (t1 t2 : string * string * string) : Prop :=
  let '(d1, i1, c1) := t1 in
  let '(d2, i2, c2) := t2 in
  (d1 <> d2 /\ i1 = i2 /\ c1 = c2) \/
  (d1 = d2 /\ i1 <> i2 /\ c1 = c2) \/
  (d1 = d2 /\ i1 = i2 /\ c1 <> c2).

(** The bytes that [create_cache_key] hashes, and the key, of a triple. *)
Definition hashed (t : string * string * string) : list Z :=
  let '(d, i, c) := t in encode (combined d i c).

Definition fingerprint (t : string * string * string) : string :=
  let '(d, i, c) := t in create_cache_key d i c.

(** MD5 maps two different byte sequences to the same digest. *)
Definition md5_collision (x y : list Z) : Prop :=
  x <> y /\ MD5.hexdigest x = MD5.hexdigest y.


(** The string holds no [|]; a triple whose description and identifier hold
    none can be read back from the text that is hashed. *)
Definition no_bar (s : string) : bool :=
  forallb (fun c => negb (Ascii.eqb c "|"%char)) (list_ascii_of_string s).

Definition unambiguous (t : string * string * string) : bool :=
  let '(d, i, _) := t in no_bar d && no_bar i.

(** The (endpoint, principal) pair of a request. *)
Definition identity (request : IssueFetchRequest.t) : string * string :=
  (IssueFetchRequest.domain request, IssueFetchRequest.email request).

(** The same request with another secret. *)
Definition with_token (request : IssueFetchRequest.t) (token : string) : IssueFetchRequest.t :=
  IssueFetchRequest.mk (IssueFetchRequest.domain request) (IssueFetchRequest.email request)
    (IssueFetchRequest.jira_id request) token.

(** The design document's error taxonomy for the issue tracker: unauthorized
    when the tracker reports status 401, otherwise the upstream status when
    the failure carries one ([None] and 0 carry none), otherwise 500. *)
Definition upstream_status (e : Exn) : option Z :=
  match e with
  | JIRAError (Some n) _ => if n =? 0 then None else Some n
  | _ => None
  end.

Definition reports_invalid_credentials (e : Exn) : bool :=
  match e with
  | JIRAError (Some n) _ => n =? 401
  | _ => false
  end.

Definition surfaced_status (e : Exn) : Z :=
  if reports_invalid_credentials e then 401
  else match upstream_status e with
       | Some n => n
       | None => 500
       end.

(** The key under which [generate_test_cases] files a request (lines
    186-188). *)
Definition response_key (request : TestCaseRequest.t) : string :=
  create_cache_key (TestCaseRequest.user_story request)
                   (TestCaseRequest.jira_id request)
                   (or_empty (TestCaseRequest.acceptance_criteria request)).

(** What [story_item] reads when it extracts the status of a story, said
    apart from the code: [story.fields.status.name] guarded by a [name]
    attribute on [story.fields]. *)
Definition status_guarded_by_fields_name (story : PyVal) (item : StoryItem) : Prop :=
  exists fields,
    getattr story "fields" = inr fields /\
    (hasattr fields "name" = true ->
     exists st name,
       getattr fields "status" = inr st /\ getattr st "name" = inr name /\
       as_opt_str name = Some (status item)) /\
    (hasattr fields "name" = false -> status item = None).

Section Outcomes.

Context {Handle Ext : Type} `{Collaborators Handle Ext}.

(** The issue tracker fails with [e] while [authenticate_jira] serves the
    request: when the client is built, or in [myself()]. *)
Inductive authenticate_fails (request : IssueFetchRequest.t) (w : World Handle Ext)
    (e : Exn) : Prop :=
| authenticate_fails_JIRA x :
    JIRA (IssueFetchRequest.domain request) (IssueFetchRequest.email request)
         (IssueFetchRequest.jira_token request) (ext w) = (inl e, x) ->
    authenticate_fails request w e
| authenticate_fails_myself jira x x' :
    JIRA (IssueFetchRequest.domain request) (IssueFetchRequest.email request)
         (IssueFetchRequest.jira_token request) (ext w) = (inr jira, x) ->
    myself jira x = (inl e, x') ->
    authenticate_fails request w e.

(** The client [fetch_epic_stories] goes on with, and the services' state
    once it has it: the cached one, or one built on a miss. *)
Inductive client (request : IssueFetchRequest.t) (w : World Handle Ext)
    (jira : Handle) (x : Ext) : Prop :=
| client_cached :
    cached_dict w !! session_key request = Some jira -> x = ext w ->
    client request w jira x
| client_built :
    cached_dict w !! session_key request = None ->
    JIRA (IssueFetchRequest.domain request) (IssueFetchRequest.email request)
         (IssueFetchRequest.jira_token request) (ext w) = (inr jira, x) ->
    client request w jira x.

(** The issue tracker fails with [e] while [fetch_epic_stories] serves the
    request: when the client is built, in [issue()] or in
    [search_issues()]. *)
Inductive fetch_fails (request : IssueFetchRequest.t) (w : World Handle Ext)
    (e : Exn) : Prop :=
| fetch_fails_JIRA x :
    cached_dict w !! session_key request = None ->
    JIRA (IssueFetchRequest.domain request) (IssueFetchRequest.email request)
         (IssueFetchRequest.jira_token request) (ext w) = (inl e, x) ->
    fetch_fails request w e
| fetch_fails_issue jira x x' :
    client request w jira x ->
    issue jira (IssueFetchRequest.jira_id request) x = (inl e, x') ->
    fetch_fails request w e
| fetch_fails_search jira x epic x1 x2 :
    client request w jira x ->
    issue jira (IssueFetchRequest.jira_id request) x = (inr epic, x1) ->
    search_issues jira (jql_query request) 100 x1 = (inl e, x2) ->
    fetch_fails request w e.

(** A call made through the client [jira] by [fetch_epic_stories]. *)
Definition uses_client (request : IssueFetchRequest.t) (jira : Handle)
    (ev : Event Handle) : Prop :=
  ev = EvIssue jira (IssueFetchRequest.jira_id request) \/
  ev = EvSearch jira (jql_query request) 100.

(** Every stored result carries the number of whitespace-delimited tokens of
    its content. *)
Definition counts_tokens (r : TestCaseResult) : Prop :=
  token_count r = Z.of_nat (whitespace_delimited_tokens (content r)).

End Outcomes.

(** Requests of the scenarios. *)
Module Scenario.

Definition bad_token : IssueFetchRequest.t :=
  IssueFetchRequest.mk "https://x.atlassian.net" "a@b.com" "PROJ-10" "badtoken".

Definition epic10 : IssueFetchRequest.t :=
  IssueFetchRequest.mk "https://x.atlassian.net" "a@b.com" "PROJ-10" "tok".

Definition missing_epic : IssueFetchRequest.t :=
  IssueFetchRequest.mk "https://x.atlassian.net" "a@b.com" "PROJ-404" "tok".



(** Triples of (description, identifier, criteria). *)
Definition plain : string * string * string :=
  ("As a user", "PROJ-1", EmptyString).

Definition trailing_space : string * string * string :=
  ("As a user ", "PROJ-1", EmptyString).

Definition bar_in_story : string * string * string :=
  ("As a user|admin", "PROJ-1", EmptyString).

Definition bar_in_id : string * string * string :=
  ("As a user", "admin|PROJ-1", EmptyString).

Definition as_a_user : TestCaseRequest.t :=
  TestCaseRequest.mk "As a user..." "PROJ-1" (Some EmptyString).

(** The stub's worlds: freshly started, and with the generator's quota used
    up. *)
Definition fresh : World string nat := start 0%nat.

Definition out_of_quota : World string nat := start 2%nat.

End Scenario.

(** ** The rest of [app.py] and the vocabulary of the further properties *)

(** Lines 31-33. *)
Definition health_check : string := "JIRA API Server running!".

(** The text holds nothing but whitespace. *)
Definition all_whitespace (s : string) : bool :=
  forallb isspace (list_ascii_of_string s).

(** Which operation of a collaborator a logged call went to. *)
Definition event_kind {Handle : Type} (ev : Event Handle) : nat :=
  match ev with
  | EvJIRA _ _ _ => 0
  | EvMyself _ => 1
  | EvIssue _ _ => 2
  | EvSearch _ _ _ => 3
  | EvInvoke _ => 4
  end%nat.

(** A search, if the call is one, asks for at most 100 results. *)
Definition search_capped {Handle : Type} (ev : Event Handle) : Prop :=
  match ev with
  | EvSearch _ _ maxResults => maxResults = 100
  | _ => True
  end.

(** What a story item takes over from the story it is built from: its key,
    its summary and description, and the epic of the request. *)
Definition item_of_story (request : IssueFetchRequest.t) (story : PyVal)
    (item : StoryItem) : Prop :=
  exists fields d,
    getattr story "fields" = inr fields /\
    getattr story "key" = inr (PStr (key item)) /\
    getattr fields "summary" = inr (PStr (summary item)) /\
    getattr fields "description" = inr d /\
    as_opt_str d = Some (description item) /\
    epic_link item = Some (IssueFetchRequest.jira_id request).

(** The attributes [story_item] reads without asking whether they exist. *)
Definition has_required_attributes (story : PyVal) : Prop :=
  hasattr story "key" = true /\
  exists fields,
    getattr story "fields" = inr fields /\
    hasattr fields "assignee" = true /\ hasattr fields "priority" = true /\
    hasattr fields "summary" = true /\ hasattr fields "description" = true.

(** A tracker that answers every search with one story whose [fields] has no
    [assignee]. *)
Module Faulty.

Definition story : PyVal :=
  PObj "Issue"
    [("key", PStr "PROJ-13");
     ("fields", PObj "PropertyHolder"
        [("summary", PStr "Refund"); ("description", PNone);
         ("priority", PNone);
         ("status", PObj "Status" [("name", PStr "Open")])])].

Definition search_issues (jira jql : string) (maxResults : Z) (x : nat)
    : (Exn + list PyVal) * nat :=
  (inr [story], x).

Definition collaborators : Collaborators string nat :=
  Build_Collaborators
    Stub.JIRA Stub.myself Stub.issue search_issues
    Stub.test_case_prompt_format Stub.llm_invoke.

End Faulty.

(** * Properties *)

(** ** Strings and their encoding *)

Lemma list_ascii_of_string_app (s1 s2 : string) :
  list_ascii_of_string (s1 +:+ s2)
  = (list_ascii_of_string s1 ++ list_ascii_of_string s2)%list.
Proof.
  induction s1 as [|c s1 IH]; simpl; [reflexivity|]. now rewrite IH.
Qed.

Lemma list_ascii_of_string_inj (s1 s2 : string) :
  list_ascii_of_string s1 = list_ascii_of_string s2 -> s1 = s2.
Proof.
  intros E. rewrite <- (string_of_list_ascii_of_string s1),
    <- (string_of_list_ascii_of_string s2). now rewrite E.
Qed.

Lemma append_inv_head (s a b : string) : s +:+ a = s +:+ b -> a = b.
Proof. apply String.app_inj. Qed.

Lemma append_inv_tail (s a b : string) : a +:+ s = b +:+ s -> a = b.
Proof.
  intros E. apply list_ascii_of_string_inj.
  apply (f_equal list_ascii_of_string) in E.
  rewrite !list_ascii_of_string_app in E.
  exact (app_inv_tail _ _ _ E).
Qed.

Lemma decode_head_encode_char (c : ascii) (rest : list Z) :
  decode_head (encode_char c ++ rest) = Some (c, rest).
Proof.
  destruct c as [b0 b1 b2 b3 b4 b5 b6 b7].
  destruct b0, b1, b2, b3, b4, b5, b6, b7; reflexivity.
Qed.

Lemma encode_inj (s1 s2 : string) : encode s1 = encode s2 -> s1 = s2.
Proof.
  revert s2. induction s1 as [|c1 s1 IH]; intros [|c2 s2] E; simpl in E.
  - reflexivity.
  - apply (f_equal decode_head) in E.
    rewrite decode_head_encode_char in E. discriminate.
  - apply (f_equal decode_head) in E.
    rewrite decode_head_encode_char in E. discriminate.
  - apply (f_equal decode_head) in E.
    rewrite !decode_head_encode_char in E.
    injection E as -> E. f_equal. now apply IH.
Qed.

(** With two fields fixed, the text that is hashed determines the third. *)
Lemma combined_inj_user_story (d1 d2 i c : string) :
  combined d1 i c = combined d2 i c -> d1 = d2.
Proof. unfold combined. apply append_inv_tail. Qed.

Lemma combined_inj_jira_id (d i1 i2 c : string) :
  combined d i1 c = combined d i2 c -> i1 = i2.
Proof.
  unfold combined. intros E.
  apply append_inv_head, append_inv_head in E.
  exact (append_inv_tail _ _ _ E).
Qed.

Lemma combined_inj_acceptance_criteria (d i c1 c2 : string) :
  combined d i c1 = combined d i c2 -> c1 = c2.
Proof.
  unfold combined. intros E.
  now do 4 apply append_inv_head in E.
Qed.

Lemma hashed_differ (t1 t2 : string * string * string) :
  differ_in_one_field t1 t2 -> hashed t1 <> hashed t2.
Proof.
  destruct t1 as [[d1 i1] c1], t2 as [[d2 i2] c2]. simpl.
  intros D E. apply encode_inj in E.
  destruct D as [(N & -> & ->)|[(-> & N & ->)|(-> & -> & N)]]; apply N.
  - exact (combined_inj_user_story _ _ _ _ E).
  - exact (combined_inj_jira_id _ _ _ _ E).
  - exact (combined_inj_acceptance_criteria _ _ _ _ E).
Qed.

Lemma no_bar_not_elem (s : string) :
  no_bar s = true -> "|"%char ∉ list_ascii_of_string s.
Proof.
  unfold no_bar. intros F In.
  rewrite forallb_forall in F.
  apply list_elem_of_In, F in In.
  now rewrite Ascii.eqb_refl in In.
Qed.

Lemma combined_chars (d i c : string) :
  list_ascii_of_string (combined d i c)
  = list_ascii_of_string d
    ++ "|"%char :: list_ascii_of_string i ++ "|"%char :: list_ascii_of_string c.
Proof. unfold combined. now rewrite !list_ascii_of_string_app. Qed.

(** Without [|] in the first two fields the hashed text determines the
    triple. *)
Lemma combined_inj_unambiguous (t1 t2 : string * string * string) :
  unambiguous t1 = true -> unambiguous t2 = true ->
  hashed t1 = hashed t2 -> t1 = t2.
Proof.
  destruct t1 as [[d1 i1] c1], t2 as [[d2 i2] c2]. simpl.
  intros [D1 I1]%andb_prop [D2 I2]%andb_prop E.
  apply encode_inj, (f_equal list_ascii_of_string) in E.
  rewrite !combined_chars in E.
  apply not_elem_of_app_cons_inv_l in E as (D & _ & E);
    [|now apply no_bar_not_elem..].
  apply not_elem_of_app_cons_inv_l in E as (I & _ & C);
    [|now apply no_bar_not_elem..].
  now apply list_ascii_of_string_inj in D as ->;
    apply list_ascii_of_string_inj in I as ->;
    apply list_ascii_of_string_inj in C as ->.
Qed.

(** ** The response-cache fingerprint *)

(** C1, as amended.  The fingerprint is a function of the triple alone: equal
    triples give equal keys.  Two different triples are hashed as different
    byte sequences, and so get different keys unless MD5 collides on those
    two sequences, when they differ in exactly one field (whitespace
    included) or when no description or identifier among them holds the
    delimiter [|]. *)
Theorem create_cache_key_deterministic_sensitive (t1 t2 : string * string * string) :
  (t1 = t2 -> fingerprint t1 = fingerprint t2) /\
  (t1 <> t2 ->
   differ_in_one_field t1 t2 \/ (unambiguous t1 = true /\ unambiguous t2 = true) ->
   hashed t1 <> hashed t2 /\
   (~ md5_collision (hashed t1) (hashed t2) -> fingerprint t1 <> fingerprint t2)).
Proof.
  split; [now intros ->|].
  intros D C.
  assert (hashed t1 <> hashed t2) as N.
  { destruct C as [One|[U1 U2]]; [now apply hashed_differ|].
    intros E. apply D. now apply combined_inj_unambiguous. }
  split; [exact N|].
  intros NC E. apply NC. split; [exact N|].
  destruct t1 as [[d1 i1] c1], t2 as [[d2 i2] c2]. exact E.
Qed.

Section Properties.

Context {Handle Ext : Type} `{Collaborators Handle Ext}.

Implicit Types (w : World Handle Ext) (request : IssueFetchRequest.t).

Ltac unfold_handlers :=
  unfold authenticate_jira, fetch_epic_stories, generate_test_cases, try_except,
    authenticate_jira_body, fetch_epic_stories_body, generate_test_cases_body,
    bind, call, cached_dict_get, cached_dict_set, test_case_cache_get,
    test_case_cache_set, ret, lift, raise in *.

(** ** What each handler leaves of the two dictionaries *)

Lemma authenticate_jira_frame request w :
  test_case_cache (authenticate_jira request w).2 = test_case_cache w /\
  (cached_dict (authenticate_jira request w).2 = cached_dict w \/
   exists jira,
     cached_dict (authenticate_jira request w).2
     = <[session_key request := jira]> (cached_dict w)).
Proof.
  unfold_handlers.
  destruct (JIRA _ _ _ (ext w)) as [[e|jira] x]; simpl; [auto|].
  destruct (myself jira x) as [[e|user] x']; simpl; eauto.
Qed.

Lemma fetch_epic_stories_frame request w :
  test_case_cache (fetch_epic_stories request w).2 = test_case_cache w /\
  (cached_dict (fetch_epic_stories request w).2 = cached_dict w \/
   exists jira,
     cached_dict (fetch_epic_stories request w).2
     = <[session_key request := jira]> (cached_dict w)).
Proof.
  unfold_handlers. cbn.
  destruct (cached_dict w !! session_key request) as [jira|]; cbn.
  - destruct (issue jira _ (ext w)) as [[e|epic] x1]; cbn; [auto|].
    destruct (search_issues jira _ 100 x1) as [[e|stories] x2]; cbn; [auto|].
    destruct (story_items request stories) as [e|items]; cbn; [auto|].
    destruct (fetch_response epic items); cbn; auto.
  - destruct (JIRA _ _ _ (ext w)) as [[e|jira] x]; cbn; [auto|].
    destruct (issue jira _ x) as [[e|epic] x1]; cbn; [eauto|].
    destruct (search_issues jira _ 100 x1) as [[e|stories] x2]; cbn; [eauto|].
    destruct (story_items request stories) as [e|items]; cbn; [eauto|].
    destruct (fetch_response epic items); cbn; eauto.
Qed.

Lemma generate_test_cases_frame (request : TestCaseRequest.t) w :
  cached_dict (generate_test_cases request w).2 = cached_dict w.
Proof.
  unfold_handlers. cbn.
  destruct (test_case_cache w !! _) as [r|]; cbn; [reflexivity|].
  destruct (test_case_prompt_format _ _ _) as [e|prompt]; cbn; [reflexivity|].
  destruct (llm_invoke prompt (ext w)) as [[e|response] x]; cbn; [reflexivity|].
  destruct (getattr response "content") as [e|content]; cbn; [reflexivity|].
  destruct (str_receiver content "split"); reflexivity.
Qed.

(** ** Session keys *)




(** ** Failures of the issue tracker *)

Lemma except_jira_status (e : Exn) :
  status_code (except_jira e) = surfaced_status e.
Proof.
  destruct e as [[n|] text| | |]; try reflexivity.
  unfold except_jira, surfaced_status. simpl.
  destruct (n =? 401); [reflexivity|]. simpl.
  now destruct (n =? 0).
Qed.

Lemma authenticate_fails_surfaced request w e :
  authenticate_fails request w e ->
  exists w', authenticate_jira request w = (inl (except_jira e), w') /\
             cached_dict w' = cached_dict w /\
             test_case_cache w' = test_case_cache w.
Proof.
  intros [x EJ|jira x x' EJ EM]; unfold_handlers; rewrite EJ; cbn.
  - eauto.
  - rewrite EM; cbn. eauto.
Qed.

Lemma fetch_fails_surfaced request w e :
  fetch_fails request w e ->
  exists w', fetch_epic_stories request w = (inl (except_jira e), w').
Proof.
  intros [x Miss EJ|jira x x' C EI|jira x epic x1 x2 C EI ES];
    unfold_handlers; cbn.
  - rewrite Miss, EJ; cbn. eauto.
  - destruct C as [Hit ->|Miss EJ].
    + rewrite Hit; cbn. rewrite EI; cbn. eauto.
    + rewrite Miss, EJ; cbn. rewrite EI; cbn. eauto.
  - destruct C as [Hit ->|Miss EJ].
    + rewrite Hit; cbn. rewrite EI; cbn. rewrite ES; cbn. eauto.
    + rewrite Miss, EJ; cbn. rewrite EI; cbn. rewrite ES; cbn. eauto.
Qed.

(** C7. A failure of the issue tracker, in either handler and at any of its
    calls, reaches the caller as an HTTP error whose status is 401 when the
    tracker reported 401, else the tracker's status code when the failure
    carries one, else 500. *)
Theorem issue_tracker_failure_status request w e :
  (authenticate_fails request w e ->
   exists w', authenticate_jira request w = (inl (except_jira e), w')) /\
  (fetch_fails request w e ->
   exists w', fetch_epic_stories request w = (inl (except_jira e), w')) /\
  status_code (except_jira e) = surfaced_status e.
Proof.
  split; [|split].
  - intros F. destruct (authenticate_fails_surfaced _ _ _ F) as (w' & E & _).
    eauto.
  - apply fetch_fails_surfaced.
  - apply except_jira_status.
Qed.

(** C4. When the tracker answers an Authenticate request with status 401,
    in the client constructor or in [myself()], the caller gets a 401 error
    and the session cache is as it was: a key that was absent stays
    absent. *)
Theorem authenticate_unauthorized_stores_nothing request w text :
  authenticate_fails request w (JIRAError (Some 401) text) ->
  exists w',
    authenticate_jira request w
    = (inl {| status_code := 401;
              detail := "Authentication failed: Invalid credentials" |}, w') /\
    cached_dict w' = cached_dict w /\
    (cached_dict w !! session_key request = None ->
     cached_dict w' !! session_key request = None).
Proof.
  intros F. destruct (authenticate_fails_surfaced _ _ _ F) as (w' & E & C & _).
  exists w'. split; [exact E|]. split; [exact C|]. now rewrite C.
Qed.

(** ** A miss followed by a failure *)

Lemma generate_miss_then_failure (request : TestCaseRequest.t) w prompt e x :
  test_case_cache w !! response_key request = None ->
  test_case_prompt_format (TestCaseRequest.user_story request)
    (TestCaseRequest.jira_id request)
    (or_empty (TestCaseRequest.acceptance_criteria request)) = inr prompt ->
  llm_invoke prompt (ext w) = (inl e, x) ->
  exists w',
    generate_test_cases request w = (inl (except_generate e), w') /\
    cached_dict w' = cached_dict w /\ test_case_cache w' = test_case_cache w.
Proof.
  unfold response_key. intros Miss EF EL.
  unfold_handlers. cbn. rewrite Miss, EF; cbn. rewrite EL; cbn. eauto.
Qed.

Lemma generate_test_cases_failure (request : TestCaseRequest.t) w http w' :
  generate_test_cases request w = (inl http, w') ->
  cached_dict w' = cached_dict w /\ test_case_cache w' = test_case_cache w.
Proof.
  unfold_handlers. cbn.
  destruct (test_case_cache w !! _); cbn; [discriminate|].
  destruct (test_case_prompt_format _ _ _) as [e|prompt]; cbn;
    [now intros [= _ <-]|].
  destruct (llm_invoke prompt (ext w)) as [[e|response] x]; cbn;
    [now intros [= _ <-]|].
  destruct (getattr response "content") as [e|content]; cbn;
    [now intros [= _ <-]|].
  destruct (str_receiver content "split"); cbn;
    [now intros [= _ <-]|discriminate].
Qed.

Lemma fetch_miss_then_failure request w e x :
  cached_dict w !! session_key request = None ->
  JIRA (IssueFetchRequest.domain request) (IssueFetchRequest.email request)
       (IssueFetchRequest.jira_token request) (ext w) = (inl e, x) ->
  exists w',
    fetch_epic_stories request w = (inl (except_jira e), w') /\
    cached_dict w' = cached_dict w /\ test_case_cache w' = test_case_cache w.
Proof.
  intros Miss EJ. unfold_handlers. cbn. rewrite Miss, EJ; cbn. eauto.
Qed.

Lemma fetch_built_then_failure request w jira x e :
  cached_dict w !! session_key request = None ->
  JIRA (IssueFetchRequest.domain request) (IssueFetchRequest.email request)
       (IssueFetchRequest.jira_token request) (ext w) = (inr jira, x) ->
  (exists x', issue jira (IssueFetchRequest.jira_id request) x = (inl e, x')) \/
  (exists epic x1 x2,
     issue jira (IssueFetchRequest.jira_id request) x = (inr epic, x1) /\
     search_issues jira (jql_query request) 100 x1 = (inl e, x2)) ->
  exists w',
    fetch_epic_stories request w = (inl (except_jira e), w') /\
    cached_dict w' = <[session_key request := jira]> (cached_dict w) /\
    test_case_cache w' = test_case_cache w.
Proof.
  intros Miss EJ [(x' & EI)|(epic & x1 & x2 & EI & ES)];
    unfold_handlers; cbn; rewrite Miss, EJ; cbn; rewrite EI; cbn.
  - eauto.
  - rewrite ES; cbn. eauto.
Qed.

(** C3, as amended.  When an operation misses its cache and the call the
    miss triggers fails (building the client in FetchStories, invoking the
    generator in GenerateTestCases), both dictionaries are left as they were
    and the caller gets the handler's HTTP error for that failure; a
    GenerateTestCases call that fails for any reason leaves them as they
    were.  When in FetchStories the client is built and a later call through
    it fails, the caller gets the error as well, and the client stays stored
    under the request's key. *)
Theorem miss_then_failure w :
  (forall request e x,
     cached_dict w !! session_key request = None ->
     JIRA (IssueFetchRequest.domain request) (IssueFetchRequest.email request)
          (IssueFetchRequest.jira_token request) (ext w) = (inl e, x) ->
     exists w',
       fetch_epic_stories request w = (inl (except_jira e), w') /\
       cached_dict w' = cached_dict w /\ test_case_cache w' = test_case_cache w) /\
  (forall (request : TestCaseRequest.t) prompt e x,
     test_case_cache w !! response_key request = None ->
     test_case_prompt_format (TestCaseRequest.user_story request)
       (TestCaseRequest.jira_id request)
       (or_empty (TestCaseRequest.acceptance_criteria request)) = inr prompt ->
     llm_invoke prompt (ext w) = (inl e, x) ->
     exists w',
       generate_test_cases request w = (inl (except_generate e), w') /\
       cached_dict w' = cached_dict w /\ test_case_cache w' = test_case_cache w) /\
  (forall (request : TestCaseRequest.t) http w',
     generate_test_cases request w = (inl http, w') ->
     cached_dict w' = cached_dict w /\ test_case_cache w' = test_case_cache w) /\
  (forall request jira x e,
     cached_dict w !! session_key request = None ->
     JIRA (IssueFetchRequest.domain request) (IssueFetchRequest.email request)
          (IssueFetchRequest.jira_token request) (ext w) = (inr jira, x) ->
     (exists x', issue jira (IssueFetchRequest.jira_id request) x = (inl e, x')) \/
     (exists epic x1 x2,
        issue jira (IssueFetchRequest.jira_id request) x = (inr epic, x1) /\
        search_issues jira (jql_query request) 100 x1 = (inl e, x2)) ->
     exists w',
       fetch_epic_stories request w = (inl (except_jira e), w') /\
       cached_dict w' = <[session_key request := jira]> (cached_dict w) /\
       test_case_cache w' = test_case_cache w).
Proof.
  split; [|split; [|split]].
  - intros request e x Miss EJ.
    exact (fetch_miss_then_failure _ _ _ _ Miss EJ).
  - intros request prompt e x Miss EF EL.
    exact (generate_miss_then_failure _ _ _ _ _ Miss EF EL).
  - intros request http w' E.
    exact (generate_test_cases_failure _ _ _ _ E).
  - intros request jira x e Miss EJ Later.
    exact (fetch_built_then_failure _ _ _ _ _ Miss EJ Later).
Qed.

(** ** The response cache *)

(** A hit returns the stored record and touches nothing. *)
Lemma generate_test_cases_hit (request : TestCaseRequest.t) w res :
  test_case_cache w !! response_key request = Some res ->
  generate_test_cases request w = (inr res, w).
Proof.
  unfold response_key. intros Hit. unfold_handlers. cbn. now rewrite Hit.
Qed.

(** A miss that returns a record has invoked the generator once, counted the
    tokens of its answer and stored the record under the request's key. *)
Lemma generate_test_cases_miss (request : TestCaseRequest.t) w w1 res :
  test_case_cache w !! response_key request = None ->
  generate_test_cases request w = (inr res, w1) ->
  exists prompt,
    calls w1 = (calls w ++ [EvInvoke prompt])%list /\
    token_count res = Z.of_nat (length (split (content res))) /\
    cached_dict w1 = cached_dict w /\
    test_case_cache w1 = <[response_key request := res]> (test_case_cache w).
Proof.
  unfold response_key. intros Miss. unfold_handlers. cbn. rewrite Miss; cbn.
  destruct (test_case_prompt_format _ _ _) as [e|prompt]; cbn; [discriminate|].
  destruct (llm_invoke prompt (ext w)) as [[e|response] x]; cbn; [discriminate|].
  destruct (getattr response "content") as [e|content]; cbn; [discriminate|].
  destruct (str_receiver content "split") as [e|text]; cbn; [discriminate|].
  intros [= <- <-]. exists prompt. cbn. auto.
Qed.

(** *** Token counts and stored entries *)

Lemma split_from_length (cur s : string) :
  length (split_from cur s)
  = match cur with
    | EmptyString => token_starts true s
    | String _ _ => S (token_starts false s)
    end.
Proof.
  revert cur. induction s as [|c s IH]; intros cur; simpl.
  - now destruct cur.
  - destruct (isspace c).
    + destruct cur; simpl; now rewrite IH.
    + rewrite IH. now destruct cur.
Qed.

(** [len(content.split())] is the number of whitespace-delimited tokens. *)
Lemma split_length (s : string) : length (split s) = whitespace_delimited_tokens s.
Proof. apply split_from_length. Qed.

Lemma generate_test_cases_outcome (request : TestCaseRequest.t) w :
  test_case_cache (generate_test_cases request w).2 = test_case_cache w \/
  exists res,
    counts_tokens res /\
    test_case_cache w !! response_key request = None /\
    test_case_cache (generate_test_cases request w).2
    = <[response_key request := res]> (test_case_cache w).
Proof.
  destruct (test_case_cache w !! response_key request) as [r|] eqn:L.
  - left. now rewrite (generate_test_cases_hit _ _ _ L).
  - destruct (generate_test_cases request w) as [[e|res] w1] eqn:E.
    + left. exact (proj2 (generate_test_cases_failure _ _ _ _ E)).
    + right. exists res.
      destruct (generate_test_cases_miss _ _ _ _ L E) as (_ & _ & T & _ & C).
      split; [|split; [reflexivity|exact C]].
      unfold counts_tokens. now rewrite T, split_length.
Qed.

(** An entry of the response cache is never changed or removed. *)
Lemma response_cache_entry_persists (r : Request) w k res :
  test_case_cache w !! k = Some res ->
  test_case_cache (serve r w) !! k = Some res.
Proof.
  intros L. destruct r as [request|request|request]; simpl.
  - destruct (authenticate_jira_frame request w) as [-> _]. exact L.
  - destruct (fetch_epic_stories_frame request w) as [-> _]. exact L.
  - destruct (generate_test_cases_outcome request w) as [->|(res' & _ & Miss & ->)];
      [exact L|].
    rewrite lookup_insert_ne; [exact L|]. intros <-. congruence.
Qed.

Lemma response_cache_entry_persists_all (rs : list Request) w k res :
  test_case_cache w !! k = Some res ->
  test_case_cache (serve_all rs w) !! k = Some res.
Proof.
  revert w. induction rs as [|r rs IH]; intros w L; simpl; [exact L|].
  apply IH. now apply response_cache_entry_persists.
Qed.

(** C5. Of two GenerateTestCases calls with the same three fields, the first
    of which returns a record: the second returns that same record and
    leaves the state as it found it, so it invokes nothing, also when other
    requests were served in between; when the first call missed the cache
    the generator has been invoked exactly once over two calls in a row, by
    the first. *)
Theorem generate_test_cases_twice (request : TestCaseRequest.t) w w1 res :
  generate_test_cases request w = (inr res, w1) ->
  generate_test_cases request w1 = (inr res, w1) /\
  (forall rs : list Request,
     generate_test_cases request (serve_all rs w1) = (inr res, serve_all rs w1)) /\
  (test_case_cache w !! response_key request = None ->
   invocations (generate_test_cases request w1).2 = S (invocations w)).
Proof.
  intros E1.
  assert (test_case_cache w1 !! response_key request = Some res) as Hit.
  { destruct (test_case_cache w !! response_key request) as [r|] eqn:L.
    - rewrite (generate_test_cases_hit _ _ _ L) in E1. now injection E1 as <- <-.
    - destruct (generate_test_cases_miss _ _ _ _ L E1) as (_ & _ & _ & _ & ->).
      apply lookup_insert_eq. }
  split; [now apply generate_test_cases_hit|].
  split.
  - intros rs. apply generate_test_cases_hit.
    now apply response_cache_entry_persists_all.
  - intros Miss.
    destruct (generate_test_cases_miss _ _ _ _ Miss E1) as (prompt & EC & _).
    rewrite (generate_test_cases_hit _ _ _ Hit). simpl.
    unfold invocations. rewrite EC, List.filter_app, length_app. simpl. lia.
Qed.

Lemma reachable_counts_tokens w :
  reachable w -> forall k r, test_case_cache w !! k = Some r -> counts_tokens r.
Proof.
  induction 1 as [x|r w R IH]; intros k res L.
  - simpl in L. now rewrite lookup_empty in L.
  - destruct r as [request|request|request]; simpl in L.
    + destruct (authenticate_jira_frame request w) as [T _].
      rewrite T in L. eauto.
    + destruct (fetch_epic_stories_frame request w) as [T _].
      rewrite T in L. eauto.
    + destruct (generate_test_cases_outcome request w) as [T|(res' & C & _ & T)];
        rewrite T in L; [eauto|].
      destruct (decide (response_key request = k)) as [<-|N].
      * rewrite lookup_insert_eq in L. now injection L as <-.
      * rewrite lookup_insert_ne in L by exact N. eauto.
Qed.

(** C6. In every state the service can reach, each stored result, and each
    result a GenerateTestCases call returns, has [token_count] equal to the
    number of whitespace-delimited tokens of its [content]. *)
Theorem token_count_counts_tokens w :
  reachable w ->
  (forall k r, test_case_cache w !! k = Some r ->
     token_count r = Z.of_nat (whitespace_delimited_tokens (content r))) /\
  (forall (request : TestCaseRequest.t) res w',
     generate_test_cases request w = (inr res, w') ->
     token_count res = Z.of_nat (whitespace_delimited_tokens (content res))).
Proof.
  intros R. split.
  - exact (reachable_counts_tokens w R).
  - intros request res w' E.
    destruct (test_case_cache w !! response_key request) as [r|] eqn:L.
    + rewrite (generate_test_cases_hit _ _ _ L) in E. injection E as <- <-.
      exact (reachable_counts_tokens w R _ _ L).
    + destruct (generate_test_cases_miss _ _ _ _ L E) as (_ & _ & T & _).
      now rewrite T, split_length.
Qed.

(** C8. A request without acceptance criteria and the same request with the
    empty string as criteria get the same key, look up the same entry of the
    response cache and are served alike in every state. *)
Theorem absent_criteria_same_key (user_story jira_id : string) :
  response_key (TestCaseRequest.mk user_story jira_id None)
  = response_key (TestCaseRequest.mk user_story jira_id (Some EmptyString)) /\
  forall w,
    test_case_cache w !! response_key (TestCaseRequest.mk user_story jira_id None)
    = test_case_cache w
      !! response_key (TestCaseRequest.mk user_story jira_id (Some EmptyString)) /\
    generate_test_cases (TestCaseRequest.mk user_story jira_id None) w
    = generate_test_cases (TestCaseRequest.mk user_story jira_id (Some EmptyString)) w.
Proof. split; [reflexivity|]. intros w. split; reflexivity. Qed.

(** ** The status of a fetched story *)

Lemma StoryItem_new_status
    (k sm d p st a dd el tg : PyVal) (item : StoryItem) :
  StoryItem_new k sm d p st a dd el tg = inr item ->
  as_opt_str st = Some (status item).
Proof.
  unfold StoryItem_new.
  destruct (as_str k); [|discriminate].
  destruct (as_str sm); [|discriminate].
  destruct (as_opt_str d); [|discriminate].
  destruct (as_opt_str p); [|discriminate].
  destruct (as_opt_str st); [|discriminate].
  destruct (as_opt_str a); [|discriminate].
  destruct (as_opt_str dd); [|discriminate].
  destruct (as_opt_str el); [|discriminate].
  destruct (as_list_str tg); [|discriminate].
  now intros [= <-].
Qed.

Lemma story_item_status request (story : PyVal) (item : StoryItem) :
  story_item request story = inr item ->
  status_guarded_by_fields_name story item.
Proof.
  unfold story_item, status_guarded_by_fields_name.
  destruct (getattr story "fields") as [e|fields]; [discriminate|].
  intros E. exists fields. split; [reflexivity|].
  destruct (if hasattr fields "labels" then _ else _) as [e|tags];
    [discriminate|].
  destruct (getattr fields "assignee") as [e|a]; [discriminate|].
  destruct (if truthy a then _ else _) as [e|assignee]; [discriminate|].
  destruct (getattr fields "priority") as [e|p]; [discriminate|].
  destruct (if hasattr p "name" then _ else _) as [e|priority]; [discriminate|].
  destruct (hasattr fields "name").
  - destruct (getattr fields "status") as [e|st]; [discriminate|].
    destruct (getattr st "name") as [e|name] eqn:EN; [discriminate|].
    destruct (if hasattr fields "duedate" then _ else _) as [e|due];
      [discriminate|].
    destruct (getattr story "key") as [e|k]; [discriminate|].
    destruct (getattr fields "summary") as [e|sm]; [discriminate|].
    destruct (getattr fields "description") as [e|d]; [discriminate|].
    apply StoryItem_new_status in E.
    split; [|discriminate]. intros _. now exists st, name.
  - destruct (if hasattr fields "duedate" then _ else _) as [e|due];
      [discriminate|].
    destruct (getattr story "key") as [e|k]; [discriminate|].
    destruct (getattr fields "summary") as [e|sm]; [discriminate|].
    destruct (getattr fields "description") as [e|d]; [discriminate|].
    apply StoryItem_new_status in E. simpl in E.
    split; [discriminate|]. intros _. now injection E.
Qed.

Lemma story_items_status request (fetched : list PyVal) (items : list StoryItem) :
  story_items request fetched = inr items ->
  Forall2 status_guarded_by_fields_name fetched items.
Proof.
  revert items. induction fetched as [|story rest IH]; intros items; simpl.
  - intros [= <-]. constructor.
  - destruct (story_item request story) as [e|item] eqn:E; [discriminate|].
    destruct (story_items request rest) as [e|items']; [discriminate|].
    intros [= <-]. constructor; [exact (story_item_status _ _ _ E)|now apply IH].
Qed.

Lemma fetch_response_stories (epic : PyVal) (items : list StoryItem) response :
  fetch_response epic items = inr response -> stories response = items.
Proof.
  unfold fetch_response, IssueFetchResponse_new.
  destruct (getattr epic "key") as [e|k]; [discriminate|].
  destruct (getattr epic "fields") as [e|fields]; [discriminate|].
  destruct (getattr fields "summary") as [e|sm]; [discriminate|].
  destruct (getattr fields "description") as [e|d]; [discriminate|].
  destruct (as_str k); [|discriminate].
  destruct (as_str sm); [|discriminate].
  destruct (as_opt_str d); [|discriminate].
  now intros [= <-].
Qed.

(** A FetchStories request that returns has got its client, the epic and
    the stories from the tracker and built the response from them. *)
Lemma fetch_epic_stories_returns request w response w' :
  fetch_epic_stories request w = (inr response, w') ->
  exists jira x epic x1 fetched x2 items,
    client request w jira x /\
    issue jira (IssueFetchRequest.jira_id request) x = (inr epic, x1) /\
    search_issues jira (jql_query request) 100 x1 = (inr fetched, x2) /\
    story_items request fetched = inr items /\
    fetch_response epic items = inr response.
Proof.
  unfold_handlers. cbn.
  destruct (cached_dict w !! session_key request) as [jira|] eqn:L; cbn.
  - destruct (issue jira _ (ext w)) as [[e|epic] x1] eqn:EI; cbn;
      [discriminate|].
    destruct (search_issues jira _ 100 x1) as [[e|fetched] x2] eqn:ES; cbn;
      [discriminate|].
    destruct (story_items request fetched) as [e|items] eqn:EIt; cbn;
      [discriminate|].
    destruct (fetch_response epic items) as [e|a] eqn:ER; cbn; [discriminate|].
    intros [= -> _]. exists jira, (ext w), epic, x1, fetched, x2, items.
    repeat split; try assumption. now apply client_cached.
  - destruct (JIRA _ _ _ (ext w)) as [[e|jira] x] eqn:EJ; cbn; [discriminate|].
    destruct (issue jira _ x) as [[e|epic] x1] eqn:EI; cbn; [discriminate|].
    destruct (search_issues jira _ 100 x1) as [[e|fetched] x2] eqn:ES; cbn;
      [discriminate|].
    destruct (story_items request fetched) as [e|items] eqn:EIt; cbn;
      [discriminate|].
    destruct (fetch_response epic items) as [e|a] eqn:ER; cbn; [discriminate|].
    intros [= -> _]. exists jira, x, epic, x1, fetched, x2, items.
    repeat split; try assumption. now apply client_built.
Qed.

(** C9. For every story of a FetchStories response, in the order the search
    returned them: the status is [story.fields.status.name] when
    [story.fields] has a [name] attribute, and [None] when it has none,
    whatever the status object holds. *)
Theorem status_guarded_by_name_of_fields request w response w' :
  fetch_epic_stories request w = (inr response, w') ->
  exists jira x1 fetched x2,
    search_issues jira (jql_query request) 100 x1 = (inr fetched, x2) /\
    Forall2 status_guarded_by_fields_name fetched (stories response).
Proof.
  intros E.
  destruct (fetch_epic_stories_returns _ _ _ _ E)
    as (jira & x & epic & x1 & fetched & x2 & items & _ & _ & ES & EIt & ER).
  exists jira, x1, fetched, x2. split; [exact ES|].
  rewrite (fetch_response_stories _ _ _ ER).
  exact (story_items_status _ _ _ EIt).
Qed.

(** ** The secret of a FetchStories request *)

Lemma fetch_epic_stories_cached request w jira :
  cached_dict w !! session_key request = Some jira ->
  cached_dict (fetch_epic_stories request w).2 = cached_dict w /\
  authentications (fetch_epic_stories request w).2 = authentications w /\
  exists evs,
    calls (fetch_epic_stories request w).2 = (calls w ++ evs)%list /\
    Forall (uses_client request jira) evs.
Proof.
  intros Hit. unfold_handlers. cbn. rewrite Hit; cbn.
  assert (uses_client request jira (EvIssue jira (IssueFetchRequest.jira_id request)))
    as UI by now left.
  assert (uses_client request jira (EvSearch jira (jql_query request) 100))
    as US by now right.
  assert (forall evs : list (Event Handle),
            Forall (uses_client request jira) evs ->
            length (List.filter is_JIRA (calls w ++ evs))
            = length (List.filter is_JIRA (calls w)))
    as NoAuth.
  { intros evs F. rewrite List.filter_app, length_app.
    induction F as [|ev evs [->| ->] _ IH]; simpl in *; lia. }
  destruct (issue jira _ (ext w)) as [[e|epic] x1]; cbn.
  { split; [reflexivity|]. split.
    - apply (NoAuth [_]). now repeat constructor.
    - eexists [_]. split; [reflexivity|]. now repeat constructor. }
  assert (cached_dict w = cached_dict w /\
          length (List.filter is_JIRA
                    ((calls w ++ [EvIssue jira (IssueFetchRequest.jira_id request)])
                     ++ [EvSearch jira (jql_query request) 100]))
          = authentications w /\
          exists evs,
            (calls w ++ [EvIssue jira (IssueFetchRequest.jira_id request)])
            ++ [EvSearch jira (jql_query request) 100] = calls w ++ evs /\
            Forall (uses_client request jira) evs) as Done.
  { split; [reflexivity|]. rewrite <- app_assoc. split.
    - apply NoAuth. now repeat constructor.
    - eexists. split; [reflexivity|]. now repeat constructor. }
  destruct (search_issues jira _ 100 x1) as [[e|fetched] x2]; cbn;
    [exact Done|].
  destruct (story_items request fetched) as [e|items]; cbn; [exact Done|].
  destruct (fetch_response epic items); cbn; exact Done.
Qed.

Lemma story_items_with_token request token (fetched : list PyVal) :
  story_items (with_token request token) fetched = story_items request fetched.
Proof.
  induction fetched as [|story rest IH]; simpl; [reflexivity|].
  rewrite IH. reflexivity.
Qed.

(** C10. When a client is cached under the request's key, FetchStories does
    not look at the secret: two requests that differ in [jira_token] only
    give the same answer and leave the same state; the client is not built
    again, the session cache is untouched, and every call made goes through
    the cached client. *)
Theorem fetch_epic_stories_ignores_cached_secret request w jira token1 token2 :
  cached_dict w !! session_key request = Some jira ->
  fetch_epic_stories (with_token request token1) w
  = fetch_epic_stories (with_token request token2) w /\
  forall token,
    cached_dict (fetch_epic_stories (with_token request token) w).2
    = cached_dict w /\
    authentications (fetch_epic_stories (with_token request token) w).2
    = authentications w /\
    exists evs,
      calls (fetch_epic_stories (with_token request token) w).2
      = (calls w ++ evs)%list /\
      Forall (uses_client request jira) evs.
Proof.
  intros Hit. split.
  - unfold_handlers. cbn.
    change (session_key (with_token request token1)) with (session_key request).
    change (session_key (with_token request token2)) with (session_key request).
    rewrite Hit. cbn.
    destruct (issue jira _ (ext w)) as [[e|epic] x1]; cbn; [reflexivity|].
    change (jql_query (with_token request token1)) with (jql_query request).
    change (jql_query (with_token request token2)) with (jql_query request).
    destruct (search_issues jira _ 100 x1) as [[e|fetched] x2]; cbn;
      [reflexivity|].
    now rewrite !story_items_with_token.
  - intros token.
    exact (fetch_epic_stories_cached (with_token request token) w jira Hit).
Qed.

(** ** Whose client a FetchStories request goes through *)



End Properties.

(** * The scenarios, on the test doubles *)

Example md5_rfc1321 :
  MD5.hexdigest (encode EmptyString) = "d41d8cd98f00b204e9800998ecf8427e" /\
  MD5.hexdigest (encode "abc") = "900150983cd24fb0d6963f7d28e17f72" /\
  MD5.hexdigest (encode "message digest") = "f96b697d7cb7938d525a2f31aaf161d0".
Proof. vm_compute. repeat split. Qed.

Example md5_two_blocks_and_two_byte_characters :
  MD5.hexdigest (encode "aaaaaaaaaaaaaaaaaaaaaaaaaaaaaaaaaaaaaaaaaaaaaaaaaaaaaaaa")
  = "3b0c8ac703f828b04c6c197006d17218" /\
  MD5.hexdigest
    (encode (String (ascii_of_nat 160) (String (ascii_of_nat 233) EmptyString)))
  = "cb874ff57700dccbcbb06c9f36b9e1b8".
Proof. vm_compute. split; reflexivity. Qed.

Example create_cache_key_as_a_user :
  create_cache_key "As a user..." "PROJ-1" EmptyString
  = "1e8adc8c064696ed0d34165440f08fd8".
Proof. vm_compute. reflexivity. Qed.

Example split_on_any_whitespace :
  split (String (ascii_of_nat 97) (String (ascii_of_nat 160)
          (String (ascii_of_nat 98) (String (ascii_of_nat 133) "c  d e "))))
  = ["a"; "b"; "c"; "d"; "e"].
Proof. reflexivity. Qed.

(** C1, counterexample.  The delimiter is not escaped: a [|] at the end of
    the description or at the start of the identifier gives the same hashed
    text, hence the same key, whatever the hash. *)
Lemma create_cache_key_shared_by_two_triples :
  Scenario.bar_in_story <> Scenario.bar_in_id /\
  hashed Scenario.bar_in_story = hashed Scenario.bar_in_id /\
  fingerprint Scenario.bar_in_story = fingerprint Scenario.bar_in_id.
Proof. split; [discriminate|]. split; reflexivity. Qed.

Lemma create_cache_key_trailing_space :
  Scenario.plain <> Scenario.trailing_space /\
  fingerprint Scenario.plain = fingerprint Scenario.plain /\
  fingerprint Scenario.plain <> fingerprint Scenario.trailing_space.
Proof.
  assert (Scenario.plain <> Scenario.trailing_space) as D by discriminate.
  destruct (create_cache_key_deterministic_sensitive
              Scenario.plain Scenario.trailing_space) as [_ S].
  destruct (create_cache_key_deterministic_sensitive
              Scenario.plain Scenario.plain) as [Det _].
  split; [exact D|]. split; [exact (Det eq_refl)|].
  apply (S D).
  - right. split; reflexivity.
  - intros [_ E]. vm_compute in E. discriminate.
Defined.



(** C3, counterexample.  The session cache misses, the client is built and
    stored, the epic does not exist: the caller gets the tracker's 404 and
    the session cache now holds the client. *)
Lemma fetch_miss_then_issue_failure_stores_client :
  cached_dict Scenario.fresh !! session_key Scenario.missing_epic = None /\
  issue "a@b.com/tok" "PROJ-404" 0%nat
  = (inl (JIRAError (Some 404) "JiraError HTTP 404"), 0%nat) /\
  (fetch_epic_stories Scenario.missing_epic Scenario.fresh).1
  = inl {| status_code := 404; detail := "JIRA Error: JiraError HTTP 404" |} /\
  cached_dict (fetch_epic_stories Scenario.missing_epic Scenario.fresh).2
    !! session_key Scenario.missing_epic = Some "a@b.com/tok" /\
  cached_dict (fetch_epic_stories Scenario.missing_epic Scenario.fresh).2
  <> cached_dict Scenario.fresh.
Proof.
  assert (cached_dict (fetch_epic_stories Scenario.missing_epic Scenario.fresh).2
            !! session_key Scenario.missing_epic = Some "a@b.com/tok") as Stored
    by (vm_compute; reflexivity).
  split; [reflexivity|]. split; [reflexivity|].
  split; [vm_compute; reflexivity|]. split; [exact Stored|].
  intros E. rewrite E in Stored. discriminate.
Qed.

Lemma miss_then_failure_on_stubs :
  (exists w',
     fetch_epic_stories Scenario.bad_token Scenario.fresh
     = (inl {| status_code := 401;
               detail := "Authentication failed: Invalid credentials" |}, w') /\
     cached_dict w' = cached_dict Scenario.fresh /\
     test_case_cache w' = test_case_cache Scenario.fresh) /\
  (exists w',
     generate_test_cases Scenario.as_a_user Scenario.out_of_quota
     = (inl {| status_code := 500;
               detail := "Error generating test cases: quota exceeded" |}, w') /\
     cached_dict w' = cached_dict Scenario.out_of_quota /\
     test_case_cache w' = test_case_cache Scenario.out_of_quota) /\
  (exists w',
     fetch_epic_stories Scenario.missing_epic Scenario.fresh
     = (inl {| status_code := 404; detail := "JIRA Error: JiraError HTTP 404" |}, w') /\
     cached_dict w'
     = <[session_key Scenario.missing_epic := "a@b.com/tok"]>
         (cached_dict Scenario.fresh) /\
     test_case_cache w' = test_case_cache Scenario.fresh).
Proof.
  destruct (miss_then_failure (Handle := string) (Ext := nat) Scenario.fresh)
    as (F & _ & _ & L).
  destruct (miss_then_failure (Handle := string) (Ext := nat) Scenario.out_of_quota)
    as (_ & G & _).
  split; [|split].
  - exact (F Scenario.bad_token (JIRAError (Some 401) "JiraError HTTP 401") 0%nat
             eq_refl eq_refl).
  - exact (G Scenario.as_a_user
             "Story PROJ-1: As a user... Criteria: "
             (Exception "quota exceeded") 2%nat eq_refl eq_refl eq_refl).
  - exact (L Scenario.missing_epic "a@b.com/tok" 0%nat
             (JIRAError (Some 404) "JiraError HTTP 404") eq_refl eq_refl
             (or_introl (ex_intro _ 0%nat eq_refl))).
Defined.

(** Scenario A. *)
Lemma authenticate_bad_token :
  authenticate_fails Scenario.bad_token Scenario.fresh
    (JIRAError (Some 401) "JiraError HTTP 401") /\
  exists w',
    authenticate_jira Scenario.bad_token Scenario.fresh
    = (inl {| status_code := 401;
              detail := "Authentication failed: Invalid credentials" |}, w') /\
    cached_dict w' = cached_dict Scenario.fresh /\
    (cached_dict Scenario.fresh !! session_key Scenario.bad_token = None ->
     cached_dict w' !! session_key Scenario.bad_token = None).
Proof.
  assert (authenticate_fails Scenario.bad_token Scenario.fresh
            (JIRAError (Some 401) "JiraError HTTP 401")) as F
    by (apply authenticate_fails_JIRA with (x := 0%nat); reflexivity).
  split; [exact F|].
  exact (authenticate_unauthorized_stores_nothing _ _ _ F).
Defined.

(** Scenario B. *)
Lemma generate_as_a_user_twice :
  let first := generate_test_cases Scenario.as_a_user Scenario.fresh in
  first.1 = inr {| content := "1. Open the cart  2. Pay"; token_count := 6 |} /\
  test_case_cache Scenario.fresh !! response_key Scenario.as_a_user = None /\
  generate_test_cases Scenario.as_a_user first.2
  = (inr {| content := "1. Open the cart  2. Pay"; token_count := 6 |}, first.2) /\
  invocations (generate_test_cases Scenario.as_a_user first.2).2 = 1%nat.
Proof.
  intros first.
  assert (first = (inr {| content := "1. Open the cart  2. Pay"; token_count := 6 |},
                   first.2)) as E by (vm_compute; reflexivity).
  assert (test_case_cache Scenario.fresh !! response_key Scenario.as_a_user = None)
    as Miss by (vm_compute; reflexivity).
  destruct (generate_test_cases_twice _ _ _ _ E) as (Again & _ & Once).
  split; [now rewrite E|]. split; [exact Miss|]. split; [exact Again|].
  exact (Once Miss).
Defined.

Lemma token_count_after_one_generation :
  reachable (serve (GenerateTestCases Scenario.as_a_user) Scenario.fresh) /\
  test_case_cache (serve (GenerateTestCases Scenario.as_a_user) Scenario.fresh)
    !! response_key Scenario.as_a_user
  = Some {| content := "1. Open the cart  2. Pay"; token_count := 6 |} /\
  6 = Z.of_nat (whitespace_delimited_tokens "1. Open the cart  2. Pay").
Proof.
  assert (reachable (serve (GenerateTestCases Scenario.as_a_user) Scenario.fresh))
    as R by apply reachable_serve, reachable_start.
  assert (test_case_cache (serve (GenerateTestCases Scenario.as_a_user) Scenario.fresh)
            !! response_key Scenario.as_a_user
          = Some {| content := "1. Open the cart  2. Pay"; token_count := 6 |})
    as L by (vm_compute; reflexivity).
  split; [exact R|]. split; [exact L|].
  exact (proj1 (token_count_counts_tokens _ R) _ _ L).
Defined.

Lemma missing_epic_surfaces_404 :
  fetch_fails Scenario.missing_epic Scenario.fresh
    (JIRAError (Some 404) "JiraError HTTP 404") /\
  (exists w',
     fetch_epic_stories Scenario.missing_epic Scenario.fresh
     = (inl (except_jira (JIRAError (Some 404) "JiraError HTTP 404")), w')) /\
  status_code (except_jira (JIRAError (Some 404) "JiraError HTTP 404")) = 404.
Proof.
  assert (fetch_fails Scenario.missing_epic Scenario.fresh
            (JIRAError (Some 404) "JiraError HTTP 404")) as F.
  { apply fetch_fails_issue with (jira := "a@b.com/tok") (x := 0%nat) (x' := 0%nat);
      [|reflexivity].
    apply client_built; reflexivity. }
  destruct (issue_tracker_failure_status Scenario.missing_epic Scenario.fresh
              (JIRAError (Some 404) "JiraError HTTP 404")) as (_ & S & C).
  split; [exact F|]. split; [exact (S F)|exact C].
Defined.

(** Scenario C, with the status of its two stories. *)
Lemma fetch_epic10_statuses :
  let answer := fetch_epic_stories Scenario.epic10 Scenario.fresh in
  (exists response,
     answer = (inr response, answer.2) /\
     epic_key response = "PROJ-10" /\
     map key (stories response) = ["PROJ-11"; "PROJ-12"] /\
     map status (stories response) = [None; Some "Open"]) /\
  Forall2 status_guarded_by_fields_name [Stub.story1; Stub.story2]
    match answer.1 with
    | inr response => stories response
    | inl _ => []
    end.
Proof.
  intros answer.
  assert (exists response,
            answer = (inr response, answer.2) /\
            epic_key response = "PROJ-10" /\
            map key (stories response) = ["PROJ-11"; "PROJ-12"] /\
            map status (stories response) = [None; Some "Open"]) as R
    by (eexists; vm_compute; repeat split).
  split; [exact R|].
  destruct R as (response & E & _).
  destruct (status_guarded_by_name_of_fields _ _ _ _ E)
    as (jira & x1 & fetched & x2 & ES & F).
  injection ES as <-. now rewrite E.
Defined.

Lemma fetch_epic10_with_any_secret :
  let w := serve (Authenticate Scenario.epic10) Scenario.fresh in
  cached_dict w !! session_key Scenario.epic10 = Some "a@b.com/tok" /\
  fetch_epic_stories (with_token Scenario.epic10 "tok") w
  = fetch_epic_stories (with_token Scenario.epic10 "badtoken") w /\
  authentications (fetch_epic_stories (with_token Scenario.epic10 "badtoken") w).2
  = authentications w.
Proof.
  intros w.
  assert (cached_dict w !! session_key Scenario.epic10 = Some "a@b.com/tok") as Hit
    by (vm_compute; reflexivity).
  destruct (fetch_epic_stories_ignores_cached_secret
              Scenario.epic10 w "a@b.com/tok" "tok" "badtoken" Hit) as [Same Each].
  split; [exact Hit|]. split; [exact Same|].
  exact (proj1 (proj2 (Each "badtoken"))).
Defined.

(** * Further properties of [app.py] *)

(** ** The length of a fingerprint *)

Lemma hex_length (bs : list Z) : String.length (MD5.hex bs) = (2 * length bs)%nat.
Proof. induction bs as [|b bs IH]; simpl; [reflexivity|]. rewrite IH. lia. Qed.

Lemma bytes_of_word_length (n : nat) (w : Z) : length (MD5.bytes_of_word n w) = n.
Proof. revert w. induction n as [|n IH]; intros w; simpl; [reflexivity|]. now rewrite IH. Qed.

Lemma digest_length (msg : list Z) : length (MD5.digest msg) = 16%nat.
Proof. unfold MD5.digest. now rewrite !length_app, !bytes_of_word_length. Qed.

Lemma create_cache_key_fixed (user_story jira_id acceptance_criteria : string) :
  String.length (create_cache_key user_story jira_id acceptance_criteria) = 32%nat.
Proof.
  unfold create_cache_key, MD5.hexdigest. now rewrite hex_length, digest_length.
Qed.

Section FurtherProperties.

Context {Handle Ext : Type} `{Collaborators Handle Ext}.

Implicit Types (w : World Handle Ext) (request : IssueFetchRequest.t).

Ltac run_handlers :=
  unfold authenticate_jira, fetch_epic_stories, generate_test_cases, try_except,
    authenticate_jira_body, fetch_epic_stories_body, generate_test_cases_body,
    bind, call, cached_dict_get, cached_dict_set, test_case_cache_get,
    test_case_cache_set, ret, lift, raise in *; cbn.

(** ** The calls a request makes *)

Lemma authenticate_jira_calls request w :
  exists evs,
    calls (authenticate_jira request w).2 = calls w ++ evs /\
    (evs = [EvJIRA (IssueFetchRequest.domain request) (IssueFetchRequest.email request)
              (IssueFetchRequest.jira_token request)] \/
     exists jira,
       evs = [EvJIRA (IssueFetchRequest.domain request) (IssueFetchRequest.email request)
                (IssueFetchRequest.jira_token request); EvMyself jira]).
Proof.
  run_handlers.
  destruct (JIRA _ _ _ (ext w)) as [[e|jira] x]; cbn; [eauto|].
  destruct (myself jira x) as [[e|user] x']; cbn;
    rewrite <- app_assoc; eauto.
Qed.

Lemma fetch_epic_stories_calls request w :
  exists evs,
    calls (fetch_epic_stories request w).2 = calls w ++ evs /\
    ((cached_dict w !! session_key request = None /\
      evs = [EvJIRA (IssueFetchRequest.domain request) (IssueFetchRequest.email request)
               (IssueFetchRequest.jira_token request)]) \/
     (exists jira,
        cached_dict w !! session_key request = None /\
        (evs = [EvJIRA (IssueFetchRequest.domain request)
                  (IssueFetchRequest.email request)
                  (IssueFetchRequest.jira_token request);
                EvIssue jira (IssueFetchRequest.jira_id request)] \/
         evs = [EvJIRA (IssueFetchRequest.domain request)
                  (IssueFetchRequest.email request)
                  (IssueFetchRequest.jira_token request);
                EvIssue jira (IssueFetchRequest.jira_id request);
                EvSearch jira (jql_query request) 100])) \/
     (exists jira,
        cached_dict w !! session_key request = Some jira /\
        (evs = [EvIssue jira (IssueFetchRequest.jira_id request)] \/
         evs = [EvIssue jira (IssueFetchRequest.jira_id request);
                EvSearch jira (jql_query request) 100]))).
Proof.
  run_handlers.
  destruct (cached_dict w !! session_key request) as [jira|] eqn:L; cbn.
  - destruct (issue jira _ (ext w)) as [[e|epic] x1]; cbn;
      [eexists; split; [reflexivity|]; right; right; exists jira; auto|].
    destruct (search_issues jira _ 100 x1) as [[e|fetched] x2]; cbn;
      [|destruct (story_items request fetched) as [e|items]; cbn;
        [|destruct (fetch_response epic items); cbn]];
      rewrite <- app_assoc; eexists; (split; [reflexivity|]);
      right; right; exists jira; auto.
  - destruct (JIRA _ _ _ (ext w)) as [[e|jira] x]; cbn;
      [eexists; split; [reflexivity|]; left; auto|].
    destruct (issue jira _ x) as [[e|epic] x1]; cbn;
      [rewrite <- app_assoc; eexists; split; [reflexivity|];
       right; left; exists jira; auto|].
    destruct (search_issues jira _ 100 x1) as [[e|fetched] x2]; cbn;
      [|destruct (story_items request fetched) as [e|items]; cbn;
        [|destruct (fetch_response epic items); cbn]];
      rewrite <- !app_assoc; eexists; (split; [reflexivity|]);
      right; left; exists jira; auto.
Qed.

Lemma generate_test_cases_calls (request : TestCaseRequest.t) w :
  exists evs,
    calls (generate_test_cases request w).2 = calls w ++ evs /\
    (evs = [] \/ exists prompt, evs = [EvInvoke prompt]).
Proof.
  run_handlers.
  destruct (test_case_cache w !! _) as [r|]; cbn;
    [exists []; rewrite app_nil_r; auto|].
  destruct (test_case_prompt_format _ _ _) as [e|prompt]; cbn;
    [exists []; rewrite app_nil_r; auto|].
  destruct (llm_invoke prompt (ext w)) as [[e|response] x]; cbn; [eauto|].
  destruct (getattr response "content") as [e|content]; cbn; [eauto|].
  destruct (str_receiver content "split"); cbn; eauto.
Qed.

(** X2. A request only appends to the log of collaborator calls, and it
    calls no operation of a collaborator twice: there are no retries.  It
    makes at most three calls, and a search asks for at most 100 results. *)
Theorem request_makes_each_call_once (r : Request) w :
  exists evs,
    calls (serve r w) = calls w ++ evs /\
    NoDup (map event_kind evs) /\
    (length evs <= 3)%nat /\
    Forall search_capped evs.
Proof.
  destruct r as [request|request|request]; simpl.
  - destruct (authenticate_jira_calls request w) as (evs & E & [->|[jira ->]]);
      eexists; (split; [exact E|]); simpl;
      (split; [refine (bool_decide_unpack _ _); vm_compute; exact I|]);
      (split; [lia|]); repeat constructor.
  - destruct (fetch_epic_stories_calls request w)
      as (evs & E & [[_ ->]|[(jira & _ & [->| ->])|(jira & _ & [->| ->])]]);
      eexists; (split; [exact E|]); simpl;
      (split; [refine (bool_decide_unpack _ _); vm_compute; exact I|]);
      (split; [lia|]); repeat constructor.
  - destruct (generate_test_cases_calls request w) as (evs & E & [->|[prompt ->]]);
      eexists; (split; [exact E|]); simpl;
      (split; [refine (bool_decide_unpack _ _); vm_compute; exact I|]);
      (split; [lia|]); repeat constructor.
Qed.

(** ** Authenticate *)

Lemma authenticate_jira_returns request w response w1 :
  authenticate_jira request w = (inr response, w1) ->
  exists jira x user x',
    JIRA (IssueFetchRequest.domain request) (IssueFetchRequest.email request)
         (IssueFetchRequest.jira_token request) (ext w) = (inr jira, x) /\
    myself jira x = (inr user, x') /\
    response = {| auth_status := "authenticated";
                  username := dict_get user "displayName" |} /\
    cached_dict w1 = <[session_key request := jira]> (cached_dict w) /\
    test_case_cache w1 = test_case_cache w /\
    calls w1
    = calls w ++ [EvJIRA (IssueFetchRequest.domain request)
                    (IssueFetchRequest.email request)
                    (IssueFetchRequest.jira_token request); EvMyself jira].
Proof.
  run_handlers.
  destruct (JIRA _ _ _ (ext w)) as [[e|jira] x] eqn:EJ; cbn; [discriminate|].
  destruct (myself jira x) as [[e|user] x'] eqn:EM; cbn; [discriminate|].
  intros [= <- <-]. exists jira, x, user, x'. cbn.
  rewrite <- app_assoc. auto 10.
Qed.

(** X3. Authenticate never looks into the session cache: whatever is stored,
    each request builds a client anew, and its answer depends on the
    tracker's state only. *)
Theorem authenticate_always_builds_client request w :
  authentications (authenticate_jira request w).2 = S (authentications w) /\
  forall w', ext w' = ext w ->
    (authenticate_jira request w').1 = (authenticate_jira request w).1.
Proof.
  split.
  - destruct (authenticate_jira_calls request w) as (evs & E & [->|[jira ->]]);
      unfold authentications; rewrite E, List.filter_app, length_app; simpl; lia.
  - intros w' Ex. run_handlers. rewrite Ex.
    destruct (JIRA _ _ _ (ext w)) as [[e|jira] x]; cbn; [reflexivity|].
    destruct (myself jira x) as [[e|user] x']; reflexivity.
Qed.

(** X4. A successful Authenticate answers "authenticated" with the user's
    [displayName] ([None] when the tracker gives none), and stores the client
    it built under the request's key in place of whatever was there; the
    other keys and the response cache are left alone. *)
Theorem authenticate_success_stores_client request w response w1 :
  authenticate_jira request w = (inr response, w1) ->
  auth_status response = "authenticated" /\
  (exists jira x user x',
     JIRA (IssueFetchRequest.domain request) (IssueFetchRequest.email request)
          (IssueFetchRequest.jira_token request) (ext w) = (inr jira, x) /\
     myself jira x = (inr user, x') /\
     username response = default PNone (assoc "displayName" user) /\
     cached_dict w1 !! session_key request = Some jira) /\
  (forall k, k <> session_key request -> cached_dict w1 !! k = cached_dict w !! k) /\
  test_case_cache w1 = test_case_cache w.
Proof.
  intros E.
  destruct (authenticate_jira_returns _ _ _ _ E)
    as (jira & x & user & x' & EJ & EM & -> & C & T & _).
  split; [reflexivity|]. split; [|split; [|exact T]].
  - exists jira, x, user, x'.
    split; [exact EJ|]. split; [exact EM|]. split.
    + unfold dict_get. simpl. now destruct (assoc "displayName" user).
    + rewrite C. apply lookup_insert_eq.
  - intros k N. rewrite C. now apply lookup_insert_ne.
Qed.

Lemma identity_session_key request1 request2 :
  identity request1 = identity request2 -> session_key request1 = session_key request2.
Proof. unfold identity, session_key. now intros [= -> ->]. Qed.

(** X5. After a successful Authenticate, a FetchStories request of the same
    endpoint and principal, whatever its secret and epic, builds no client:
    all its calls go through the client Authenticate has just checked with
    [myself()]. *)
Theorem fetch_after_authenticate_reuses_client request w response w1 request' :
  authenticate_jira request w = (inr response, w1) ->
  identity request' = identity request ->
  exists jira evs,
    last (calls w1) = Some (EvMyself jira) /\
    cached_dict w1 !! session_key request' = Some jira /\
    calls (fetch_epic_stories request' w1).2 = calls w1 ++ evs /\
    Forall (uses_client request' jira) evs /\
    authentications (fetch_epic_stories request' w1).2 = authentications w1 /\
    cached_dict (fetch_epic_stories request' w1).2 = cached_dict w1.
Proof.
  intros E I.
  destruct (authenticate_jira_returns _ _ _ _ E)
    as (jira & x & user & x' & _ & _ & _ & C & _ & L).
  assert (cached_dict w1 !! session_key request' = Some jira) as Hit.
  { rewrite (identity_session_key _ _ I), C. apply lookup_insert_eq. }
  destruct (fetch_epic_stories_cached request' w1 jira Hit) as (Same & NoAuth & evs & EC & U).
  exists jira, evs. repeat split; try assumption.
  rewrite L. change [?a; ?b] with ([a] ++ [b]). now rewrite app_assoc, last_snoc.
Qed.

(** ** The session cache over time *)

Lemma fetch_epic_stories_builds request w jira x :
  cached_dict w !! session_key request = None ->
  JIRA (IssueFetchRequest.domain request) (IssueFetchRequest.email request)
       (IssueFetchRequest.jira_token request) (ext w) = (inr jira, x) ->
  cached_dict (fetch_epic_stories request w).2
  = <[session_key request := jira]> (cached_dict w).
Proof.
  intros Miss EJ. run_handlers. rewrite Miss; cbn. rewrite EJ; cbn.
  destruct (issue jira _ x) as [[e|epic] x1]; cbn; [reflexivity|].
  destruct (search_issues jira _ 100 x1) as [[e|fetched] x2]; cbn; [reflexivity|].
  destruct (story_items request fetched) as [e|items]; cbn; [reflexivity|].
  destruct (fetch_response epic items); reflexivity.
Qed.

(** X6. When FetchStories misses the session cache and builds a client, that
    client is stored whether or not the rest of the request succeeds, and
    the next FetchStories of the same endpoint and principal goes through it
    without building one, whatever secret it brings. *)
Theorem fetch_after_fetch_reuses_client request w jira x token :
  cached_dict w !! session_key request = None ->
  JIRA (IssueFetchRequest.domain request) (IssueFetchRequest.email request)
       (IssueFetchRequest.jira_token request) (ext w) = (inr jira, x) ->
  cached_dict (fetch_epic_stories request w).2 !! session_key request = Some jira /\
  authentications
    (fetch_epic_stories (with_token request token) (fetch_epic_stories request w).2).2
  = authentications (fetch_epic_stories request w).2 /\
  exists evs,
    calls (fetch_epic_stories (with_token request token)
             (fetch_epic_stories request w).2).2
    = calls (fetch_epic_stories request w).2 ++ evs /\
    Forall (uses_client request jira) evs.
Proof.
  intros Miss EJ.
  assert (cached_dict (fetch_epic_stories request w).2 !! session_key request
          = Some jira) as Hit
    by (rewrite (fetch_epic_stories_builds _ _ _ _ Miss EJ); apply lookup_insert_eq).
  split; [exact Hit|].
  exact (proj2 (fetch_epic_stories_cached (with_token request token) _ jira Hit)).
Qed.

Lemma fetch_epic_stories_keeps_client request w k jira :
  cached_dict w !! k = Some jira ->
  cached_dict (fetch_epic_stories request w).2 !! k = Some jira.
Proof.
  intros L. destruct (decide (session_key request = k)) as [<-|N].
  - destruct (fetch_epic_stories_cached request w jira L) as [-> _]. exact L.
  - destruct (fetch_epic_stories_frame request w) as [_ [->|[jira' ->]]];
      [exact L|]. now rewrite lookup_insert_ne.
Qed.

Lemma serve_keeps_session_key (r : Request) w k :
  is_Some (cached_dict w !! k) -> is_Some (cached_dict (serve r w) !! k).
Proof.
  intros [jira L]. destruct r as [request|request|request]; simpl.
  - destruct (authenticate_jira_frame request w) as [_ [->|[jira' ->]]]; [eauto|].
    destruct (decide (session_key request = k)) as [<-|N].
    + rewrite lookup_insert_eq. eauto.
    + rewrite lookup_insert_ne by exact N. eauto.
  - rewrite (fetch_epic_stories_keeps_client _ _ _ _ L). eauto.
  - rewrite generate_test_cases_frame. eauto.
Qed.

(** X7. A client in the session cache is never evicted, by any sequence of
    requests, and only an Authenticate of the same key replaces it:
    FetchStories and GenerateTestCases, and an Authenticate of another key,
    leave it in place. *)
Theorem session_client_is_never_evicted w k jira :
  cached_dict w !! k = Some jira ->
  (forall rs : list Request, is_Some (cached_dict (serve_all rs w) !! k)) /\
  (forall r : Request,
     (forall request, r = Authenticate request -> session_key request <> k) ->
     cached_dict (serve r w) !! k = Some jira).
Proof.
  intros L. split.
  - intros rs. assert (is_Some (cached_dict w !! k)) as S by eauto.
    clear L. revert w S. induction rs as [|r rs IH]; intros w S; simpl; [exact S|].
    apply IH. now apply serve_keeps_session_key.
  - intros r Other. destruct r as [request|request|request]; simpl.
    + destruct (authenticate_jira_frame request w) as [_ [->|[jira' ->]]];
        [exact L|].
      rewrite lookup_insert_ne; [exact L|]. now apply Other.
    + now apply fetch_epic_stories_keeps_client.
    + now rewrite generate_test_cases_frame.
Qed.

(** ** The response cache over time *)

(** X8. Once stored, a result is never changed or removed: after any sequence
    of requests the same key still gives the same record. *)
Theorem response_cache_is_immutable w k res (rs : list Request) :
  test_case_cache w !! k = Some res ->
  test_case_cache (serve_all rs w) !! k = Some res.
Proof.
  revert w. induction rs as [|r rs IH]; intros w L; simpl; [exact L|].
  apply IH. destruct r as [request|request|request]; simpl.
  - destruct (authenticate_jira_frame request w) as [-> _]. exact L.
  - destruct (fetch_epic_stories_frame request w) as [-> _]. exact L.
  - destruct (generate_test_cases_outcome request w) as [->|(res' & _ & Miss & ->)];
      [exact L|].
    rewrite lookup_insert_ne; [exact L|]. intros <-. congruence.
Qed.

Lemma serve_response_keys (r : Request) w k :
  is_Some (test_case_cache (serve r w) !! k) ->
  is_Some (test_case_cache w !! k) \/
  exists request : TestCaseRequest.t, k = response_key request.
Proof.
  destruct r as [request|request|request]; simpl.
  - destruct (authenticate_jira_frame request w) as [-> _]. auto.
  - destruct (fetch_epic_stories_frame request w) as [-> _]. auto.
  - destruct (generate_test_cases_outcome request w) as [->|(res & _ & _ & ->)];
      [auto|].
    destruct (decide (response_key request = k)) as [<-|N]; [eauto|].
    rewrite lookup_insert_ne by exact N. auto.
Qed.

Lemma serve_session_keys (r : Request) w k :
  is_Some (cached_dict (serve r w) !! k) ->
  is_Some (cached_dict w !! k) \/ exists request, k = session_key request.
Proof.
  destruct r as [request|request|request]; simpl.
  - destruct (authenticate_jira_frame request w) as [_ [->|[jira ->]]]; [auto|].
    destruct (decide (session_key request = k)) as [<-|N]; [eauto|].
    rewrite lookup_insert_ne by exact N. auto.
  - destruct (fetch_epic_stories_frame request w) as [_ [->|[jira ->]]]; [auto|].
    destruct (decide (session_key request = k)) as [<-|N]; [eauto|].
    rewrite lookup_insert_ne by exact N. auto.
  - rewrite generate_test_cases_frame. auto.
Qed.

(** X9. In every state the service can reach, each key of the response cache
    is the fingerprint of a request (hence 32 characters long), and each key
    of the session cache is the endpoint and principal of a request joined
    by [:]. *)
Theorem cache_keys_are_derived_from_requests w :
  reachable w ->
  (forall k, is_Some (test_case_cache w !! k) ->
     String.length k = 32%nat /\
     exists request : TestCaseRequest.t, k = response_key request) /\
  (forall k, is_Some (cached_dict w !! k) ->
     exists request, k = session_key request).
Proof.
  induction 1 as [x|r w R [IHt IHs]].
  - split; intros k [v L]; simpl in L; now rewrite lookup_empty in L.
  - split; intros k S.
    + destruct (serve_response_keys r w k S) as [Old|[request ->]]; [auto|].
      split; [exact (create_cache_key_fixed _ _ _)|].
      exists request. reflexivity.
    + destruct (serve_session_keys r w k S) as [Old|Fresh]; auto.
Qed.

(** ** The two caches side by side *)

Lemma count_app (f : Event Handle -> bool) (l evs : list (Event Handle)) :
  length (List.filter f (l ++ evs))
  = (length (List.filter f l) + length (List.filter f evs))%nat.
Proof. now rewrite List.filter_app, length_app. Qed.

(** X10. The two caches do not touch each other.  Authenticate and
    FetchStories leave the response cache alone and never call the
    generator; GenerateTestCases leaves the session cache alone and never
    calls the issue tracker. *)
Theorem caches_are_independent (r : Request) w :
  exists evs,
    calls (serve r w) = calls w ++ evs /\
    match r with
    | GenerateTestCases _ =>
        cached_dict (serve r w) = cached_dict w /\
        Forall (fun ev => event_kind ev = 4%nat) evs
    | _ =>
        test_case_cache (serve r w) = test_case_cache w /\
        Forall (fun ev => event_kind ev <> 4%nat) evs
    end.
Proof.
  destruct r as [request|request|request]; simpl.
  - destruct (authenticate_jira_calls request w) as (evs & E & [->|[jira ->]]);
      eexists; (split; [exact E|]);
      (split; [exact (proj1 (authenticate_jira_frame request w))|]);
      repeat constructor; discriminate.
  - destruct (fetch_epic_stories_calls request w)
      as (evs & E & [[_ ->]|[(jira & _ & [->| ->])|(jira & _ & [->| ->])]]);
      eexists; (split; [exact E|]);
      (split; [exact (proj1 (fetch_epic_stories_frame request w))|]);
      repeat constructor; discriminate.
  - destruct (generate_test_cases_calls request w) as (evs & E & [->|[prompt ->]]);
      eexists; (split; [exact E|]);
      (split; [apply generate_test_cases_frame|]); repeat constructor.
Qed.

Lemma serve_session_size (r : Request) w :
  (size (cached_dict (serve r w)) + authentications w
   <= size (cached_dict w) + authentications (serve r w))%nat.
Proof.
  destruct r as [request|request|request]; simpl.
  - destruct (authenticate_jira_calls request w) as (evs & E & Shape).
    assert (authentications (authenticate_jira request w).2 = S (authentications w))
      as -> by (unfold authentications; rewrite E, count_app;
                destruct Shape as [->|[jira ->]]; simpl; lia).
    destruct (authenticate_jira_frame request w) as [_ [->|[jira ->]]]; [lia|].
    rewrite map_size_insert. destruct (cached_dict w !! _); simpl; lia.
  - destruct (fetch_epic_stories_calls request w)
      as (evs & E & [[_ ->]|[(jira & _ & Shape)|(jira & Hit & Shape)]]).
    + unfold authentications at 2. rewrite E, count_app. simpl.
      destruct (fetch_epic_stories_frame request w) as [_ [->|[jira ->]]];
        [unfold authentications; lia|].
      rewrite map_size_insert.
      destruct (cached_dict w !! _); unfold authentications; simpl; lia.
    + unfold authentications at 2. rewrite E, count_app.
      assert (length (List.filter is_JIRA evs) = 1%nat) as ->
        by (destruct Shape as [->| ->]; reflexivity).
      destruct (fetch_epic_stories_frame request w) as [_ [->|[jira' ->]]];
        [unfold authentications; lia|].
      rewrite map_size_insert.
      destruct (cached_dict w !! _); unfold authentications; simpl; lia.
    + destruct (fetch_epic_stories_cached request w jira Hit) as (-> & -> & _). lia.
  - rewrite generate_test_cases_frame.
    destruct (generate_test_cases_calls request w) as (evs & E & Shape).
    unfold authentications at 2. rewrite E, count_app.
    destruct Shape as [->|[prompt ->]]; unfold authentications; simpl; lia.
Qed.

Lemma serve_response_size (r : Request) w :
  (size (test_case_cache (serve r w)) + invocations w
   <= size (test_case_cache w) + invocations (serve r w))%nat.
Proof.
  destruct r as [request|request|request]; simpl.
  - destruct (authenticate_jira_frame request w) as [-> _].
    destruct (authenticate_jira_calls request w) as (evs & E & Shape).
    unfold invocations at 2. rewrite E, count_app. unfold invocations. lia.
  - destruct (fetch_epic_stories_frame request w) as [-> _].
    destruct (fetch_epic_stories_calls request w) as (evs & E & Shape).
    unfold invocations at 2. rewrite E, count_app. unfold invocations. lia.
  - destruct (test_case_cache w !! response_key request) as [res|] eqn:L.
    + rewrite (generate_test_cases_hit _ _ _ L). simpl. lia.
    + destruct (generate_test_cases request w) as [[http|res] w1] eqn:E; simpl.
      * destruct (generate_test_cases_failure _ _ _ _ E) as [_ ->].
        destruct (generate_test_cases_calls request w) as (evs & EC & _).
        rewrite E in EC. simpl in EC.
        unfold invocations at 2. rewrite EC, count_app. unfold invocations. lia.
      * destruct (generate_test_cases_miss _ _ _ _ L E) as (prompt & EC & _ & _ & ->).
        rewrite map_size_insert_None by exact L.
        unfold invocations at 2. rewrite EC, count_app. unfold invocations.
        simpl. lia.
Qed.

(** X11. In every state the service can reach, the response cache holds at
    most as many results as the generator has been invoked, and the session
    cache at most as many clients as have been built. *)
Theorem caches_are_bounded_by_calls w :
  reachable w ->
  (size (test_case_cache w) <= invocations w)%nat /\
  (size (cached_dict w) <= authentications w)%nat.
Proof.
  induction 1 as [x|r w R [IHt IHs]].
  - split; simpl; rewrite map_size_empty; lia.
  - pose proof (serve_response_size r w). pose proof (serve_session_size r w).
    split; lia.
Qed.

(** ** What FetchStories makes of the stories *)

Lemma as_str_Some (v : PyVal) (x : string) : as_str v = Some x -> v = PStr x.
Proof. destruct v; simpl; congruence. Qed.

Lemma getattr_error (v : PyVal) (a : string) (e : Exn) :
  getattr v a = inl e -> exists cls, e = AttributeError cls a.
Proof.
  unfold getattr. destruct v as [| | |cls attrs]; try (intros [= <-]; eauto).
  destruct (assoc a attrs); [discriminate|]. intros [= <-]. eauto.
Qed.

Lemma hasattr_true (v : PyVal) (a : string) (x : PyVal) :
  getattr v a = inr x -> hasattr v a = true.
Proof. unfold hasattr. now intros ->. Qed.

Lemma StoryItem_new_inv (k sm d p st a dd el tg : PyVal) (item : StoryItem) :
  StoryItem_new k sm d p st a dd el tg = inr item ->
  as_str k = Some (key item) /\ as_str sm = Some (summary item) /\
  as_opt_str d = Some (description item) /\ as_opt_str p = Some (priority item) /\
  as_opt_str a = Some (assignee item) /\ as_opt_str dd = Some (due_date item) /\
  as_opt_str el = Some (epic_link item) /\ as_list_str tg = Some (tags item).
Proof.
  unfold StoryItem_new.
  destruct (as_str k); [|discriminate].
  destruct (as_str sm); [|discriminate].
  destruct (as_opt_str d); [|discriminate].
  destruct (as_opt_str p); [|discriminate].
  destruct (as_opt_str st); [|discriminate].
  destruct (as_opt_str a); [|discriminate].
  destruct (as_opt_str dd); [|discriminate].
  destruct (as_opt_str el); [|discriminate].
  destruct (as_list_str tg); [|discriminate].
  intros [= <-]. simpl. auto 10.
Qed.

Lemma StoryItem_new_error (k sm d p st a dd el tg : PyVal) (e : Exn) :
  StoryItem_new k sm d p st a dd el tg = inl e ->
  exists fs, e = ValidationError "StoryItem" fs.
Proof.
  unfold StoryItem_new.
  destruct (as_str k); [|intros [= <-]; eauto].
  destruct (as_str sm); [|intros [= <-]; eauto].
  destruct (as_opt_str d); [|intros [= <-]; eauto].
  destruct (as_opt_str p); [|intros [= <-]; eauto].
  destruct (as_opt_str st); [|intros [= <-]; eauto].
  destruct (as_opt_str a); [|intros [= <-]; eauto].
  destruct (as_opt_str dd); [|intros [= <-]; eauto].
  destruct (as_opt_str el); [|intros [= <-]; eauto].
  destruct (as_list_str tg); [discriminate|intros [= <-]; eauto].
Qed.

(** Everything [story_item] has read and built when it returns an item. *)
Lemma story_item_inv request (story : PyVal) (item : StoryItem) :
  story_item request story = inr item ->
  exists fields tg a asg p pr dd k sm d,
    getattr story "fields" = inr fields /\
    (if hasattr fields "labels" then getattr fields "labels" else inr (PList []))
    = inr tg /\
    getattr fields "assignee" = inr a /\
    (if truthy a then getattr a "displayName" else inr PNone) = inr asg /\
    getattr fields "priority" = inr p /\
    (if hasattr p "name" then getattr p "name" else inr PNone) = inr pr /\
    (if hasattr fields "duedate" then getattr fields "duedate" else inr PNone)
    = inr dd /\
    getattr story "key" = inr k /\
    getattr fields "summary" = inr sm /\
    getattr fields "description" = inr d /\
    as_str k = Some (key item) /\ as_str sm = Some (summary item) /\
    as_opt_str d = Some (description item) /\ as_opt_str pr = Some (priority item) /\
    as_opt_str asg = Some (assignee item) /\ as_opt_str dd = Some (due_date item) /\
    epic_link item = Some (IssueFetchRequest.jira_id request) /\
    as_list_str tg = Some (tags item).
Proof.
  unfold story_item.
  destruct (getattr story "fields") as [e|fields]; [discriminate|].
  destruct (if hasattr fields "labels" then _ else _) as [e|tg] eqn:ET;
    [discriminate|].
  destruct (getattr fields "assignee") as [e|a] eqn:EA; [discriminate|].
  destruct (if truthy a then _ else _) as [e|asg] eqn:EAs; [discriminate|].
  destruct (getattr fields "priority") as [e|p] eqn:EP; [discriminate|].
  destruct (if hasattr p "name" then _ else _) as [e|pr] eqn:EPr; [discriminate|].
  destruct (if hasattr fields "name" then _ else _) as [e|stv]; [discriminate|].
  destruct (if hasattr fields "duedate" then _ else _) as [e|dd] eqn:ED;
    [discriminate|].
  destruct (getattr story "key") as [e|k] eqn:EK; [discriminate|].
  destruct (getattr fields "summary") as [e|sm] eqn:ES; [discriminate|].
  destruct (getattr fields "description") as [e|d] eqn:EDe; [discriminate|].
  intros (Hk & Hs & Hd & Hp & Ha & Hdd & Hel & Htg)%StoryItem_new_inv.
  exists fields, tg, a, asg, p, pr, dd, k, sm, d.
  simpl in Hel. injection Hel as Hel.
  repeat (split; [first [reflexivity|assumption|now symmetry in Hel; rewrite Hel]|]).
  assumption.
Qed.

Lemma story_item_takes_over request (story : PyVal) (item : StoryItem) :
  story_item request story = inr item -> item_of_story request story item.
Proof.
  intros (fields & tg & a & asg & p & pr & dd & k & sm & d & EF & _ & _ & _ & _
          & _ & _ & EK & ES & ED & Hk & Hs & Hd & _ & _ & _ & Hel & _)%story_item_inv.
  apply as_str_Some in Hk as ->. apply as_str_Some in Hs as ->.
  exists fields, d. auto 10.
Qed.

Lemma story_items_take_over request (fetched : list PyVal) (items : list StoryItem) :
  story_items request fetched = inr items ->
  Forall2 (item_of_story request) fetched items.
Proof.
  revert items. induction fetched as [|story rest IH]; intros items; simpl.
  - intros [= <-]. constructor.
  - destruct (story_item request story) as [e|item] eqn:E; [discriminate|].
    destruct (story_items request rest) as [e|items']; [discriminate|].
    intros [= <-]. constructor; [exact (story_item_takes_over _ _ _ E)|now apply IH].
Qed.

Lemma fetch_response_inv (epic : PyVal) (items : list StoryItem) response :
  fetch_response epic items = inr response ->
  getattr epic "key" = inr (PStr (epic_key response)) /\
  (exists fields,
     getattr epic "fields" = inr fields /\
     getattr fields "summary" = inr (PStr (epic_summary response))) /\
  stories response = items.
Proof.
  unfold fetch_response, IssueFetchResponse_new.
  destruct (getattr epic "key") as [e|k]; [discriminate|].
  destruct (getattr epic "fields") as [e|fields]; [discriminate|].
  destruct (getattr fields "summary") as [e|sm] eqn:ES; [discriminate|].
  destruct (getattr fields "description") as [e|d]; [discriminate|].
  destruct (as_str k) eqn:Hk; [|discriminate].
  destruct (as_str sm) eqn:Hs; [|discriminate].
  destruct (as_opt_str d); [|discriminate].
  intros [= <-]. simpl.
  apply as_str_Some in Hk as ->. apply as_str_Some in Hs as ->. eauto.
Qed.

(** X12. A FetchStories response carries the key and summary of the epic the
    tracker returned and one item per story the search returned, in the same
    order; each item has the key, summary and description of its story and
    the requested epic as [epic_link]. *)
Theorem fetch_epic_stories_response_shape request w response w' :
  fetch_epic_stories request w = (inr response, w') ->
  exists jira x epic x1 fetched x2,
    issue jira (IssueFetchRequest.jira_id request) x = (inr epic, x1) /\
    search_issues jira (jql_query request) 100 x1 = (inr fetched, x2) /\
    getattr epic "key" = inr (PStr (epic_key response)) /\
    (exists fields,
       getattr epic "fields" = inr fields /\
       getattr fields "summary" = inr (PStr (epic_summary response))) /\
    length (stories response) = length fetched /\
    Forall2 (item_of_story request) fetched (stories response).
Proof.
  intros E.
  destruct (fetch_epic_stories_returns _ _ _ _ E)
    as (jira & x & epic & x1 & fetched & x2 & items & _ & EI & ES & EIt & ER).
  destruct (fetch_response_inv _ _ _ ER) as (K & S & ->).
  pose proof (story_items_take_over _ _ _ EIt) as F.
  exists jira, x, epic, x1, fetched, x2.
  repeat (split; [assumption|]). split; [|exact F].
  symmetry. exact (Forall2_length _ _ _ F).
Qed.

(** X13. The optional fields of a story item: no [labels] attribute gives no
    tags, a false assignee (such as [None]) gives no assignee, a priority
    without [name] (such as [None]) gives no priority, no [duedate]
    attribute gives no due date. *)
Theorem story_item_defaults request (story : PyVal) (item : StoryItem) :
  story_item request story = inr item ->
  exists fields a p,
    getattr story "fields" = inr fields /\
    getattr fields "assignee" = inr a /\
    getattr fields "priority" = inr p /\
    (hasattr fields "labels" = false -> tags item = []) /\
    (truthy a = false -> assignee item = None) /\
    (hasattr p "name" = false -> priority item = None) /\
    (hasattr fields "duedate" = false -> due_date item = None).
Proof.
  intros (fields & tg & a & asg & p & pr & dd & k & sm & d & EF & ET & EA & EAs
          & EP & EPr & ED & _ & _ & _ & _ & _ & _ & Hp & Ha & Hdd & _ & Htg)%story_item_inv.
  exists fields, a, p. repeat (split; [assumption|]).
  split; [|split; [|split]]; intros N; rewrite N in *.
  - injection ET as <-. simpl in Htg. congruence.
  - injection EAs as <-. simpl in Ha. congruence.
  - injection EPr as <-. simpl in Hp. congruence.
  - injection ED as <-. simpl in Hdd. congruence.
Qed.

Lemma guarded_getattr_error (b : bool) (v y : PyVal) (a : string) (e : Exn) :
  (if b then getattr v a else inr y) = inl e -> exists cls, e = AttributeError cls a.
Proof. destruct b; [apply getattr_error|discriminate]. Qed.

(** What [story_item] can raise: a missing attribute, or a field of the
    wrong type. *)
Lemma story_item_error request (story : PyVal) (e : Exn) :
  story_item request story = inl e ->
  (exists cls attr, e = AttributeError cls attr) \/
  (has_required_attributes story /\ exists fs, e = ValidationError "StoryItem" fs).
Proof.
  unfold story_item.
  destruct (getattr story "fields") as [e0|fields] eqn:E0;
    [intros [= <-]; left; destruct (getattr_error _ _ _ E0) as [? ->]; eauto|].
  destruct (if hasattr fields "labels" then _ else _) as [e0|tg] eqn:E1;
    [intros [= <-]; left; destruct (guarded_getattr_error _ _ _ _ _ E1) as [? ->]; eauto|].
  destruct (getattr fields "assignee") as [e0|a] eqn:E2;
    [intros [= <-]; left; destruct (getattr_error _ _ _ E2) as [? ->]; eauto|].
  destruct (if truthy a then _ else _) as [e0|asg] eqn:E3;
    [intros [= <-]; left; destruct (guarded_getattr_error _ _ _ _ _ E3) as [? ->]; eauto|].
  destruct (getattr fields "priority") as [e0|p] eqn:E4;
    [intros [= <-]; left; destruct (getattr_error _ _ _ E4) as [? ->]; eauto|].
  destruct (if hasattr p "name" then _ else _) as [e0|pr] eqn:E5;
    [intros [= <-]; left; destruct (guarded_getattr_error _ _ _ _ _ E5) as [? ->]; eauto|].
  destruct (if hasattr fields "name" then _ else _) as [e0|stv] eqn:E6.
  { intros [= <-]. left. destruct (hasattr fields "name"); [|discriminate].
    destruct (getattr fields "status") as [e1|st] eqn:E7.
    - injection E6 as <-. destruct (getattr_error _ _ _ E7) as [? ->]. eauto.
    - destruct (getattr_error _ _ _ E6) as [? ->]. eauto. }
  destruct (if hasattr fields "duedate" then _ else _) as [e0|dd] eqn:E8;
    [intros [= <-]; left; destruct (guarded_getattr_error _ _ _ _ _ E8) as [? ->]; eauto|].
  destruct (getattr story "key") as [e0|k] eqn:E9;
    [intros [= <-]; left; destruct (getattr_error _ _ _ E9) as [? ->]; eauto|].
  destruct (getattr fields "summary") as [e0|sm] eqn:E10;
    [intros [= <-]; left; destruct (getattr_error _ _ _ E10) as [? ->]; eauto|].
  destruct (getattr fields "description") as [e0|d] eqn:E11;
    [intros [= <-]; left; destruct (getattr_error _ _ _ E11) as [? ->]; eauto|].
  intros E. right. split; [|exact (StoryItem_new_error _ _ _ _ _ _ _ _ _ _ E)].
  split; [exact (hasattr_true _ _ _ E9)|].
  exists fields. split; [exact E0|].
  repeat split; eapply hasattr_true; eassumption.
Qed.

Lemma story_items_error request (fetched : list PyVal) (e : Exn) :
  story_items request fetched = inl e ->
  (exists cls attr, e = AttributeError cls attr) \/
  (exists fs, e = ValidationError "StoryItem" fs).
Proof.
  induction fetched as [|story rest IH]; simpl; [discriminate|].
  destruct (story_item request story) as [e0|item] eqn:E;
    [intros [= <-];
     destruct (story_item_error _ _ _ E) as [A|[_ V]]; [now left|now right]|].
  destruct (story_items request rest) as [e0|items]; [|discriminate].
  intros [= <-]. now apply IH.
Qed.

(** X14. One story that cannot be turned into an item fails the whole
    request: the caller gets status 500 and no partial list, while the
    client the request worked with stays in the session cache. *)
Theorem malformed_story_fails_whole_request
    request w jira x (epic : PyVal) x1 (fetched : list PyVal) x2 e :
  client request w jira x ->
  issue jira (IssueFetchRequest.jira_id request) x = (inr epic, x1) ->
  search_issues jira (jql_query request) 100 x1 = (inr fetched, x2) ->
  story_items request fetched = inl e ->
  exists http w',
    fetch_epic_stories request w = (inl http, w') /\
    status_code http = 500 /\
    cached_dict w' !! session_key request = Some jira.
Proof.
  intros C EI ES EIt.
  assert (status_code (except_jira e) = 500) as S500
    by (destruct (story_items_error _ _ _ EIt) as [(? & ? & ->)|(? & ->)]; reflexivity).
  run_handlers. destruct C as [Hit ->|Miss EJ].
  - rewrite Hit; cbn. rewrite EI; cbn. rewrite ES; cbn. rewrite EIt; cbn.
    eexists _, _. split; [reflexivity|]. split; [exact S500|exact Hit].
  - rewrite Miss; cbn. rewrite EJ; cbn. rewrite EI; cbn. rewrite ES; cbn.
    rewrite EIt; cbn.
    eexists _, _. split; [reflexivity|]. split; [exact S500|].
    cbn. apply lookup_insert_eq.
Qed.

Lemma story_item_reads_required request (story : PyVal) (item : StoryItem) :
  story_item request story = inr item -> has_required_attributes story.
Proof.
  intros (fields & tg & a & asg & p & pr & dd & k & sm & d & EF & _ & EA & _
          & EP & _ & _ & EK & ES & ED & _)%story_item_inv.
  split; [exact (hasattr_true _ _ _ EK)|].
  exists fields. split; [exact EF|].
  repeat split; eapply hasattr_true; eassumption.
Qed.

(** X15. [story_item] reads [key] of the story and [assignee], [priority],
    [summary] and [description] of its fields without asking whether they
    are there: a story that lacks one of them (or has no [fields]) raises an
    [AttributeError]. *)
Theorem story_without_required_attribute_fails request (story : PyVal) :
  ~ has_required_attributes story ->
  exists cls attr, story_item request story = inl (AttributeError cls attr).
Proof.
  intros Lacks.
  destruct (story_item request story) as [e|item] eqn:E.
  - destruct (story_item_error _ _ _ E) as [(cls & attr & ->)|[Has _]]; [eauto|].
    now destruct Lacks.
  - destruct Lacks. exact (story_item_reads_required _ _ _ E).
Qed.

(** ** GenerateTestCases *)

(** X16. GenerateTestCases fails only on a miss, and then always with status
    500, whatever was raised (a status the exception may carry is not looked
    at): a request whose key is cached is answered even when the generator
    is down. *)
Theorem generate_failure_is_internal_error (request : TestCaseRequest.t) w http w' :
  generate_test_cases request w = (inl http, w') ->
  status_code http = 500 /\
  test_case_cache w !! response_key request = None /\
  exists e, http = except_generate e.
Proof.
  intros E.
  destruct (test_case_cache w !! response_key request) as [res|] eqn:L.
  - now rewrite (generate_test_cases_hit _ _ _ L) in E.
  - unfold generate_test_cases, try_except in E.
    destruct (generate_test_cases_body request w) as [[e|res] w1];
      [|discriminate].
    injection E as <- <-. eauto.
Qed.

Lemma token_starts_bound (b : bool) (s : string) :
  (2 * token_starts b s <= String.length s + (if b then 1 else 0))%nat.
Proof.
  revert b. induction s as [|c s IH]; intros b; simpl.
  - destruct b; lia.
  - destruct (isspace c).
    + specialize (IH true). simpl in IH. destruct b; lia.
    + specialize (IH false). simpl in IH. destruct b; lia.
Qed.

Lemma token_starts_zero (s : string) :
  token_starts true s = 0%nat <-> all_whitespace s = true.
Proof.
  unfold all_whitespace. induction s as [|c s IH]; simpl; [easy|].
  destruct (isspace c); simpl; [exact IH|]. split; [lia|discriminate].
Qed.

Lemma returned_counts_tokens (request : TestCaseRequest.t) w res w' :
  reachable w ->
  generate_test_cases request w = (inr res, w') ->
  counts_tokens res.
Proof.
  intros R E.
  destruct (test_case_cache w !! response_key request) as [r|] eqn:L.
  - rewrite (generate_test_cases_hit _ _ _ L) in E. injection E as <- <-.
    exact (reachable_counts_tokens w R _ _ L).
  - destruct (generate_test_cases_miss _ _ _ _ L E) as (_ & _ & T & _).
    unfold counts_tokens. now rewrite T, split_length.
Qed.

(** X17. The [token_count] of a returned result is never negative, is at most
    half the length of the content rounded up, and is zero exactly when the
    content is empty or all whitespace. *)
Theorem token_count_bounds (request : TestCaseRequest.t) w res w' :
  reachable w ->
  generate_test_cases request w = (inr res, w') ->
  0 <= token_count res /\
  2 * token_count res <= Z.of_nat (String.length (content res)) + 1 /\
  (token_count res = 0 <-> all_whitespace (content res) = true).
Proof.
  intros R E. pose proof (returned_counts_tokens _ _ _ _ R E) as C.
  unfold counts_tokens, whitespace_delimited_tokens in C. rewrite C.
  pose proof (token_starts_bound true (content res)) as B. simpl in B.
  split; [lia|]. split; [lia|].
  rewrite <- token_starts_zero. lia.
Qed.

(** X18. Authenticate stores the client only after the tracker has answered
    [myself()]: when the tracker fails, at the construction of the client or
    at [myself()] and with whatever error, both caches are as they were
    before and the caller gets the handler's error for that failure. *)
Theorem authenticate_failure_stores_nothing request w e :
  authenticate_fails request w e ->
  exists w',
    authenticate_jira request w = (inl (except_jira e), w') /\
    cached_dict w' = cached_dict w /\
    test_case_cache w' = test_case_cache w.
Proof.
  intros [x EJ|jira x x' EJ EM]; run_handlers; rewrite EJ; cbn.
  - eexists. split; [reflexivity|]. split; reflexivity.
  - rewrite EM; cbn. eexists. split; [reflexivity|]. split; reflexivity.
Qed.

End FurtherProperties.

(** ** The further properties on the test doubles *)

Lemma authenticate_epic10_stores_client :
  exists w1,
    authenticate_jira Scenario.epic10 Scenario.fresh
    = (inr {| auth_status := "authenticated"; username := PStr "Ada" |}, w1) /\
    cached_dict w1 !! session_key Scenario.epic10 = Some "a@b.com/tok" /\
    test_case_cache w1 = test_case_cache Scenario.fresh.
Proof.
  eexists. split; [vm_compute; reflexivity|].
  destruct (authenticate_success_stores_client Scenario.epic10 Scenario.fresh
              {| auth_status := "authenticated"; username := PStr "Ada" |}
              (authenticate_jira Scenario.epic10 Scenario.fresh).2)
    as (_ & (jira & x & user & x' & EJ & _ & _ & C) & _ & T);
    [vm_compute; reflexivity|].
  injection EJ as <- _. split; [exact C|exact T].
Defined.

Lemma fetch_after_authenticate_epic10 :
  exists w1 response,
    authenticate_jira Scenario.epic10 Scenario.fresh = (inr response, w1) /\
    identity Scenario.missing_epic = identity Scenario.epic10 /\
    authentications (fetch_epic_stories Scenario.missing_epic w1).2
    = authentications w1.
Proof.
  destruct (authenticate_jira Scenario.epic10 Scenario.fresh)
    as [[http|response] w1] eqn:E; [vm_compute in E; discriminate|].
  exists w1, response. split; [reflexivity|]. split; [reflexivity|].
  destruct (fetch_after_authenticate_reuses_client
              Scenario.epic10 Scenario.fresh response w1 Scenario.missing_epic
              E eq_refl) as (jira & evs & _ & _ & _ & _ & A & _).
  exact A.
Defined.

Lemma fetch_after_fetch_missing_epic :
  cached_dict Scenario.fresh !! session_key Scenario.missing_epic = None /\
  JIRA "https://x.atlassian.net" "a@b.com" "tok" (ext Scenario.fresh)
  = (inr "a@b.com/tok", 0%nat) /\
  cached_dict (fetch_epic_stories Scenario.missing_epic Scenario.fresh).2
    !! session_key Scenario.missing_epic = Some "a@b.com/tok" /\
  authentications
    (fetch_epic_stories (with_token Scenario.missing_epic "other")
       (fetch_epic_stories Scenario.missing_epic Scenario.fresh).2).2
  = authentications (fetch_epic_stories Scenario.missing_epic Scenario.fresh).2.
Proof.
  destruct (fetch_after_fetch_reuses_client (H := Stub.collaborators)
              Scenario.missing_epic Scenario.fresh "a@b.com/tok" 0%nat "other"
              eq_refl eq_refl) as (S & A & _).
  split; [reflexivity|]. split; [reflexivity|]. split; [exact S|exact A].
Defined.

Lemma session_client_survives_failed_authenticate :
  cached_dict (serve (Authenticate Scenario.epic10) Scenario.fresh)
    !! session_key Scenario.epic10 = Some "a@b.com/tok" /\
  cached_dict
    (serve (FetchStories Scenario.missing_epic)
       (serve (Authenticate Scenario.epic10) Scenario.fresh))
    !! session_key Scenario.epic10 = Some "a@b.com/tok" /\
  is_Some
    (cached_dict
       (serve_all [Authenticate Scenario.bad_token;
                   GenerateTestCases Scenario.as_a_user]
          (serve (Authenticate Scenario.epic10) Scenario.fresh))
       !! session_key Scenario.epic10).
Proof.
  assert (cached_dict (serve (Authenticate Scenario.epic10) Scenario.fresh)
            !! session_key Scenario.epic10 = Some "a@b.com/tok") as L
    by (vm_compute; reflexivity).
  destruct (session_client_is_never_evicted _ _ _ L) as [All One].
  split; [exact L|]. split; [|apply All].
  apply One. discriminate.
Defined.

Lemma response_cache_after_more_requests :
  test_case_cache (serve (GenerateTestCases Scenario.as_a_user) Scenario.fresh)
    !! response_key Scenario.as_a_user
  = Some {| content := "1. Open the cart  2. Pay"; token_count := 6 |} /\
  test_case_cache
    (serve_all [GenerateTestCases (TestCaseRequest.mk "As an admin" "PROJ-2" None);
                GenerateTestCases Scenario.as_a_user;
                FetchStories Scenario.epic10]
       (serve (GenerateTestCases Scenario.as_a_user) Scenario.fresh))
    !! response_key Scenario.as_a_user
  = Some {| content := "1. Open the cart  2. Pay"; token_count := 6 |}.
Proof.
  assert (test_case_cache (serve (GenerateTestCases Scenario.as_a_user) Scenario.fresh)
            !! response_key Scenario.as_a_user
          = Some {| content := "1. Open the cart  2. Pay"; token_count := 6 |}) as L
    by (vm_compute; reflexivity).
  split; [exact L|].
  exact (response_cache_is_immutable _ _ _ _ L).
Defined.

Lemma cache_keys_after_two_requests :
  reachable (serve (GenerateTestCases Scenario.as_a_user)
               (serve (Authenticate Scenario.epic10) Scenario.fresh)) /\
  String.length (response_key Scenario.as_a_user) = 32%nat /\
  exists request, session_key Scenario.epic10 = session_key request.
Proof.
  assert (reachable (serve (GenerateTestCases Scenario.as_a_user)
                       (serve (Authenticate Scenario.epic10) Scenario.fresh))) as R
    by (do 2 apply reachable_serve; apply reachable_start).
  destruct (cache_keys_are_derived_from_requests _ R) as [T S].
  split; [exact R|]. split.
  - apply T. vm_compute. eauto.
  - apply S. vm_compute. eauto.
Defined.

Lemma caches_bounded_after_two_requests :
  reachable (serve (GenerateTestCases Scenario.as_a_user)
               (serve (Authenticate Scenario.epic10) Scenario.fresh)) /\
  (size (test_case_cache (serve (GenerateTestCases Scenario.as_a_user)
                            (serve (Authenticate Scenario.epic10) Scenario.fresh)))
   <= 1)%nat.
Proof.
  assert (reachable (serve (GenerateTestCases Scenario.as_a_user)
                       (serve (Authenticate Scenario.epic10) Scenario.fresh))) as R
    by (do 2 apply reachable_serve; apply reachable_start).
  split; [exact R|].
  exact (proj1 (caches_are_bounded_by_calls _ R)).
Defined.

Lemma fetch_epic10_shape :
  exists response w',
    fetch_epic_stories Scenario.epic10 Scenario.fresh = (inr response, w') /\
    length (stories response) = 2%nat /\
    Forall2 (item_of_story Scenario.epic10) [Stub.story1; Stub.story2]
      (stories response).
Proof.
  destruct (fetch_epic_stories Scenario.epic10 Scenario.fresh)
    as [[http|response] w'] eqn:E; [vm_compute in E; discriminate|].
  exists response, w'. split; [reflexivity|].
  destruct (fetch_epic_stories_response_shape Scenario.epic10 Scenario.fresh _ _ E)
    as (jira & x & epic & x1 & fetched & x2 & _ & ES & _ & _ & Len & F).
  injection ES as <- _. split; [exact Len|exact F].
Defined.

Lemma story1_defaults :
  exists item,
    story_item Scenario.epic10 Stub.story1 = inr item /\
    assignee item = None /\ due_date item = None.
Proof.
  eexists. split; [reflexivity|].
  destruct (story_item_defaults
              Scenario.epic10 Stub.story1 _ eq_refl)
    as (fields & a & p & EF & EA & _ & _ & A & _ & _).
  split; [|reflexivity].
  apply A. injection EF as <-. now injection EA as <-.
Defined.

Lemma faulty_story_fails_request :
  client (H := Faulty.collaborators) Scenario.epic10 Scenario.fresh "a@b.com/tok" 0%nat /\
  story_items Scenario.epic10 [Faulty.story]
  = inl (AttributeError "PropertyHolder" "assignee") /\
  exists http w',
    fetch_epic_stories (H := Faulty.collaborators) Scenario.epic10 Scenario.fresh
    = (inl http, w') /\
    status_code http = 500 /\
    cached_dict w' !! session_key Scenario.epic10 = Some "a@b.com/tok".
Proof.
  assert (client (H := Faulty.collaborators) Scenario.epic10 Scenario.fresh
            "a@b.com/tok" 0%nat) as C by (apply client_built; reflexivity).
  split; [exact C|]. split; [reflexivity|].
  exact (malformed_story_fails_whole_request (H := Faulty.collaborators)
           Scenario.epic10 Scenario.fresh "a@b.com/tok" 0%nat
           (Stub.epic "PROJ-10") 0%nat [Faulty.story] 0%nat _
           C eq_refl eq_refl eq_refl).
Defined.

Lemma faulty_story_lacks_assignee :
  ~ has_required_attributes Faulty.story /\
  exists cls attr,
    story_item Scenario.epic10 Faulty.story
    = inl (AttributeError cls attr).
Proof.
  assert (~ has_required_attributes Faulty.story) as N.
  { intros (_ & fields & EF & A & _). injection EF as <-. discriminate A. }
  split; [exact N|].
  exact (story_without_required_attribute_fails
           Scenario.epic10 Faulty.story N).
Defined.

Lemma generate_out_of_quota_is_500 :
  exists http w',
    generate_test_cases Scenario.as_a_user Scenario.out_of_quota = (inl http, w') /\
    status_code http = 500.
Proof.
  destruct (generate_test_cases Scenario.as_a_user Scenario.out_of_quota)
    as [[http|res] w'] eqn:E; [|vm_compute in E; discriminate].
  exists http, w'. split; [reflexivity|].
  exact (proj1 (generate_failure_is_internal_error
                  Scenario.as_a_user Scenario.out_of_quota _ _ E)).
Defined.

Lemma token_count_of_first_answer :
  reachable Scenario.fresh /\
  exists res w',
    generate_test_cases Scenario.as_a_user Scenario.fresh = (inr res, w') /\
    0 <= token_count res /\
    2 * token_count res <= Z.of_nat (String.length (content res)) + 1.
Proof.
  assert (reachable Scenario.fresh) as R by apply reachable_start.
  split; [exact R|].
  destruct (generate_test_cases Scenario.as_a_user Scenario.fresh)
    as [[http|res] w'] eqn:E; [vm_compute in E; discriminate|].
  exists res, w'. split; [reflexivity|].
  destruct (token_count_bounds Scenario.as_a_user Scenario.fresh _ _ R E)
    as (Z0 & B & _).
  split; [exact Z0|exact B].
Defined.

Lemma authenticate_bad_token_stores_nothing :
  authenticate_fails Scenario.bad_token Scenario.fresh
    (JIRAError (Some 401) "JiraError HTTP 401") /\
  exists w',
    authenticate_jira Scenario.bad_token Scenario.fresh
    = (inl (except_jira (JIRAError (Some 401) "JiraError HTTP 401")), w') /\
    cached_dict w' = cached_dict Scenario.fresh /\
    test_case_cache w' = test_case_cache Scenario.fresh.
Proof.
  assert (authenticate_fails Scenario.bad_token Scenario.fresh
            (JIRAError (Some 401) "JiraError HTTP 401")) as F
    by (apply authenticate_fails_JIRA with (x := 0%nat); reflexivity).
  split; [exact F|].
  exact (authenticate_failure_stores_nothing _ _ _ F).
Defined.
